(** * create-icons.py: placeholder icon generator of the SmartShelf extension

    The script imports Pillow, defines [create_icon] and calls it for the
    sizes 16, 32, 48 and 128 inside one [try] block with two handlers.
    Everything it does goes through calls into Pillow, [os] and [print];
    the development below threads the history of those calls through a
    state-and-exception monad and takes the outcome of every call from an
    environment that may inspect the whole history. *)

From Stdlib Require Import ZArith List String Ascii Bool Lia.
From Stdlib Require Import DecimalString.
From Stdlib Require Import Floats.SpecFloat.
Import ListNotations.

Local Open Scope string_scope.
Local Open Scope list_scope.
Local Open Scope Z_scope.

(** ** Python values used by the script *)

Module Py.

(** The exception classes that matter to the three [except] clauses of
    the script.  [KeyboardInterrupt] and [SystemExit] derive from
    [BaseException] only, [ModuleNotFoundError] derives from
    [ImportError], [UnicodeEncodeError] from [ValueError], everything
    else listed from [Exception]. *)
Inductive ExnClass :=
| KeyboardInterrupt | SystemExit
| ImportError | ModuleNotFoundError
| OSError | ValueError | UnicodeEncodeError | MemoryError | OverflowError
| RuntimeError.

Record Exn := { exn_class : ExnClass; exn_str : string }.

(** [isinstance(e, Exception)] *)
Definition is_Exception (e : Exn) : bool :=
  match exn_class e with
  | KeyboardInterrupt | SystemExit => false
  | _ => true
  end.

(** [isinstance(e, ImportError)] *)
Definition is_ImportError (e : Exn) : bool :=
  match exn_class e with
  | ImportError | ModuleNotFoundError => true
  | _ => false
  end.

(** *** binary64 arithmetic, as much as [int(size * 0.6)] needs *)

Definition prec : Z := 53.
Definition emax : Z := 1024.

(** The literal [0.6]: the double nearest to 3/5, 0x1.3333333333333p-1. *)
Definition float_0_6 : spec_float := S754_finite false 5404319552844595 (-53).

(** [float(n)] for a Python int: correctly rounded, [OverflowError] when
    the result would not be finite. *)
Definition float_of_int (n : Z) : Exn + spec_float :=
  match binary_normalize prec emax n 0 false with
  | S754_infinity _ | S754_nan =>
      inl {| exn_class := OverflowError;
             exn_str := "int too large to convert to float" |}
  | f => inr f
  end.

(** [n * x] with [n] an int and [x] a float. *)
Definition int_mul_float (n : Z) (x : spec_float) : Exn + spec_float :=
  match float_of_int n with
  | inl e => inl e
  | inr f => inr (SFmul prec emax f x)
  end.

(** [int(x)] for a float: truncation towards zero. *)
Definition int_of_float (x : spec_float) : Exn + Z :=
  match x with
  | S754_zero _ => inr 0
  | S754_finite s m e =>
      let a := if 0 <=? e then Zpos m * 2 ^ e else Zpos m / 2 ^ (- e) in
      inr (if s then - a else a)
  | S754_infinity _ =>
      inl {| exn_class := OverflowError;
             exn_str := "cannot convert float infinity to integer" |}
  | S754_nan =>
      inl {| exn_class := ValueError;
             exn_str := "cannot convert float NaN to integer" |}
  end.

(** [str(n)] for an int. *)
Definition str_of_int (n : Z) : string := NilZero.string_of_int (Z.to_int n).

End Py.

Import Py.

(** ** The part of Pillow the script touches *)

Module PIL.

Definition RGB : Type := Z * Z * Z.

(** An image: mode, dimensions and the colour of every pixel. *)
Record Image := {
  im_mode : string;
  im_width : Z;
  im_height : Z;
  im_getpixel : Z -> Z -> RGB
}.

(** A font handle returned by [ImageFont.load_default]. *)
Record Font := { font_name : string }.

(** A rasterised glyph: for a pixel at offset [(dx, dy)] from the anchor,
    [Some c] when the stroke covers it and leaves colour [c] there. *)
Definition Glyph : Type := Z -> Z -> option RGB.

Definition hex_digit (c : ascii) : option Z :=
  let n := Z.of_nat (nat_of_ascii c) in
  if (48 <=? n) && (n <=? 57) then Some (n - 48)
  else if (97 <=? n) && (n <=? 102) then Some (n - 87)
  else if (65 <=? n) && (n <=? 70) then Some (n - 55)
  else None.

Definition hex_pair (a b : ascii) : option Z :=
  match hex_digit a, hex_digit b with
  | Some h, Some l => Some (16 * h + l)
  | _, _ => None
  end.

(** [ImageColor.getrgb] on the two forms the script uses: [#rrggbb] and
    the colour name [white]. *)
Definition getrgb (color : string) : option RGB :=
  match color with
  | String "#" (String r1 (String r2 (String g1 (String g2
      (String b1 (String b2 EmptyString)))))) =>
      match hex_pair r1 r2, hex_pair g1 g2, hex_pair b1 b2 with
      | Some r, Some g, Some b => Some (r, g, b)
      | _, _, _ => None
      end
  | _ => if String.eqb color "white" then Some (255, 255, 255) else None
  end.

(** The image [Image.new(mode, (w, h), color)] returns. *)
Definition uniform (mode : string) (w h : Z) (c : RGB) : Image :=
  {| im_mode := mode; im_width := w; im_height := h;
     im_getpixel := fun _ _ => c |}.

(** What [draw.text((x, y), ...)] does to the image behind [draw]: the
    pixels under the glyph, anchored at [(x, y)], take the glyph's
    colour; pixels outside the image do not exist. *)
Definition covered (g : Glyph) (x y i j : Z) : bool :=
  match g (i - x) (j - y) with Some _ => true | None => false end.

Definition paste (img : Image) (g : Glyph) (x y : Z) : Image :=
  {| im_mode := im_mode img;
     im_width := im_width img;
     im_height := im_height img;
     im_getpixel := fun i j =>
       match g (i - x) (j - y) with
       | Some c => c
       | None => im_getpixel img i j
       end |}.

End PIL.

Import PIL.

(** ** Calls that leave the script, and their history *)

Inductive Event :=
| ImportPIL
    (** [from PIL import Image, ImageDraw, ImageFont] *)
| ImageNew (mode : string) (width height : Z) (color : string)
    (** [Image.new(mode, (width, height), color)] *)
| DrawNew
    (** [ImageDraw.Draw(img)] *)
| LoadDefault (size : option Z)
    (** [ImageFont.load_default(size)]; [None] when called without one *)
| TextBBox (x y : Z) (text : string) (font : Font)
    (** [draw.textbbox((x, y), text, font=font)] *)
| DrawText (x y : Z) (text fill : string) (font : option Font)
    (** [draw.text((x, y), text, fill=fill, font=font)] *)
| MakeDirs (path : string) (exist_ok : bool)
    (** [os.makedirs(path, exist_ok=exist_ok)] *)
| Save (path : string)
    (** [img.save(path)] *)
| Written (path : string) (img : Image)
    (** the file at [path] now holds [img]: [img.save] returned *)
| CallPrint (line : string)
    (** [print(line)] *)
| Printed (line : string)
    (** [line] is on standard output: [print] returned *).

Definition Trace : Type := list Event.

(** The world outside the script.  Each field gives the outcome of one kind
    of call from the history up to and including that call, so an
    environment may let the third save fail and the others succeed. *)
Record Env := {
  import_outcome : Trace -> option Exn;
  alloc_outcome : Trace -> option Exn;
  draw_outcome : Trace -> option Exn;
  load_default_outcome : Trace -> Exn + Font;
  textbbox_outcome : Trace -> Exn + (Z * Z * Z * Z);
  text_outcome : Trace -> Exn + Glyph;
  makedirs_outcome : Trace -> option Exn;
  save_outcome : Trace -> option Exn;
  print_outcome : Trace -> option Exn
}.

(** ** The monad: a history that grows, and an exception or a value *)

Definition M (A : Type) : Type := Trace -> (Exn + A) * Trace.

Definition ret {A} (a : A) : M A := fun t => (inr a, t).

Definition raise {A} (e : Exn) : M A := fun t => (inl e, t).

Definition bind {A B} (m : M A) (k : A -> M B) : M B :=
  fun t =>
    match m t with
    | (inr a, t') => k a t'
    | (inl e, t') => (inl e, t')
    end.

Declare Scope py_scope.
Delimit Scope py_scope with py.
Notation "x <- m ;; k" := (bind m (fun x => k))
  (at level 61, m at next level, right associativity) : py_scope.
Notation "m ;;; k" := (bind m (fun _ => k))
  (at level 61, right associativity) : py_scope.
Local Open Scope py_scope.

(** A pure Python expression that may raise. *)
Definition eval {A} (r : Exn + A) : M A := fun t => (r, t).

(** One [except] clause: which exceptions it takes, and its body. *)
Definition Clause (A : Type) : Type := (Exn -> bool) * (Exn -> M A).

(** The first clause that matches handles the exception; with none the
    exception goes on to the caller. *)
Fixpoint dispatch {A} (cs : list (Clause A)) (e : Exn) : M A :=
  match cs with
  | [] => raise e
  | (matches, body) :: cs' => if matches e then body e else dispatch cs' e
  end.

(** [try: body  except ...: ...] *)
Definition try_except {A} (body : M A) (cs : list (Clause A)) : M A :=
  fun t =>
    match body t with
    | (inr a, t') => (inr a, t')
    | (inl e, t') => dispatch cs e t'
    end.

(** A bare [except:] takes every exception, [BaseException] included. *)
Definition bare_except {A} (body : M A) : Clause A := (fun _ => true, fun _ => body).

(** A call whose only result is that it returned or raised. *)
Definition call (ev : Event) (outcome : Trace -> option Exn) : M unit :=
  fun t =>
    let t' := t ++ [ev] in
    match outcome t' with
    | Some e => (inl e, t')
    | None => (inr tt, t')
    end.

(** A call that returns a value. *)
Definition call_value {A} (ev : Event) (outcome : Trace -> Exn + A) : M A :=
  fun t => let t' := t ++ [ev] in (outcome t', t').

Definition value_error (msg : string) : Exn :=
  {| exn_class := ValueError; exn_str := msg |}.

(** The largest C [int], and what CPython raises for an argument beyond it. *)
Definition INT_MAX : Z := 2147483647.

Definition c_int_overflow : Exn :=
  {| exn_class := OverflowError;
     exn_str := "signed integer is greater than maximum" |}.

Section Script.

Variable E : Env.

(** [Image.new(mode, size, color)]: Pillow resolves the colour, rejects
    negative dimensions, hands the dimensions to its C core as [int]s,
    which rejects those beyond [INT_MAX], and then allocates; the new
    image is filled with the colour. *)
Definition Image_new (mode : string) (size : Z * Z) (color : string) : M Image :=
  fun t =>
    let t' := t ++ [ImageNew mode (fst size) (snd size) color] in
    match getrgb color with
    | None => (inl (value_error ("unknown color specifier: " ++ color)%string), t')
    | Some c =>
        if (fst size <? 0) || (snd size <? 0)
        then (inl (value_error "Width and height must be >= 0"), t')
        else if (INT_MAX <? fst size) || (INT_MAX <? snd size)
        then (inl c_int_overflow, t')
        else
          match alloc_outcome E t' with
          | Some e => (inl e, t')
          | None => (inr (uniform mode (fst size) (snd size) c), t')
          end
    end.

Definition ImageDraw_Draw : M unit := call DrawNew (draw_outcome E).

Definition ImageFont_load_default : M Font :=
  call_value (LoadDefault None) (load_default_outcome E).

Definition draw_textbbox (xy : Z * Z) (text : string) (font : Font)
  : M (Z * Z * Z * Z) :=
  call_value (TextBBox (fst xy) (snd xy) text font) (textbbox_outcome E).

(** [draw.text] changes the image [draw] was made for; the changed image
    is returned and replaces [img] in the caller. *)
Definition draw_text (img : Image) (xy : Z * Z) (text fill : string)
           (font : option Font) : M Image :=
  g <- call_value (DrawText (fst xy) (snd xy) text fill font) (text_outcome E) ;;
  ret (paste img g (fst xy) (snd xy)).

Definition os_makedirs (path : string) (exist_ok : bool) : M unit :=
  call (MakeDirs path exist_ok) (makedirs_outcome E).

(** [img.save(path)]: when it returns, the file holds the image; when it
    raises, no file is left (Pillow removes what it had created). *)
Definition Image_save (img : Image) (path : string) : M unit :=
  call (Save path) (save_outcome E) ;;;
  (fun t => (inr tt, t ++ [Written path img])).

(** [print(line)]: when it returns, the line is on standard output; when
    it raises (an encoding the text does not fit, a closed stream),
    nothing of the line is. *)
Definition print (line : string) : M unit :=
  call (CallPrint line) (print_outcome E) ;;;
  (fun t => (inr tt, t ++ [Printed line])).

(** Lines 16-17: [font_size = int(size * 0.6)]. *)
Definition font_size_of (size : Z) : Exn + Z :=
  match int_mul_float size float_0_6 with
  | inl e => inl e
  | inr f => int_of_float f
  end.

(** Lines 19-23: the default font, or [None] when loading it raises. *)
Definition resolve_font : M (option Font) :=
  try_except (f <- ImageFont_load_default ;; ret (Some f))
             [bare_except (ret None)].

(** Lines 27-34: width and height of the label.  A font object is always
    true in a condition, so [if font:] is the test for [None]. *)
Definition measure (font : option Font) (font_size : Z) : M (Z * Z) :=
  match font with
  | Some f =>
      bbox <- draw_textbbox (0, 0) "S" f ;;
      let '(b0, b1, b2, b3) := bbox in
      ret (b2 - b0, b3 - b1)
  | None => ret (font_size / 2, font_size)
  end.

(** Lines 36-37. *)
Definition placement (size text_width text_height : Z) : Z * Z :=
  ((size - text_width) / 2, (size - text_height) / 2).

Definition icon_path (filename : string) : string :=
  ("extension/icons/" ++ filename)%string.

(** Line 44. *)
Definition created_line (filename : string) (size : Z) : string :=
  ("✅ Created " ++ filename ++ " (" ++ str_of_int size ++ "x"
     ++ str_of_int size ++ ")")%string.

Definition create_icon (size : Z) (filename : string) : M unit :=
  img <- Image_new "RGB" (size, size) "#4285f4" ;;
  ImageDraw_Draw ;;;
  font_size <- eval (font_size_of size) ;;
  font <- resolve_font ;;
  wh <- measure font font_size ;;
  let xy := placement size (fst wh) (snd wh) in
  img <- draw_text img xy "S" "white" font ;;
  os_makedirs "extension/icons" true ;;;
  Image_save img (icon_path filename) ;;;
  print (created_line filename size).

Definition nl : string := String (ascii_of_nat 10) EmptyString.

(** Lines 52-54. *)
Definition success_banner : list string :=
  [ (nl ++ "🎉 All icons created successfully!")%string;
    "📝 You can now re-enable icons in manifest.json";
    "   Uncomment the 'default_icon' and 'icons' sections" ].

(** Lines 57-63. *)
Definition missing_pil_lines : list string :=
  [ "❌ PIL (Pillow) not found. Install it with:";
    "   pip install Pillow";
    (nl ++ "Alternatively, create icons manually:")%string;
    "1. Use any image editor to create 16x16, 32x32, 48x48, 128x128 PNG files";
    "2. Save them as icon16.png, icon32.png, icon48.png, icon128.png";
    "3. Place them in extension/icons/ folder";
    "4. Re-enable icon references in manifest.json" ].

(** Lines 66-67. *)
Definition error_lines (e : Exn) : list string :=
  [ ("❌ Error creating icons: " ++ exn_str e)%string;
    "Please create icons manually or use online tools." ].

Fixpoint print_all (lines : list string) : M unit :=
  match lines with
  | [] => ret tt
  | l :: ls => print l ;;; print_all ls
  end.

(** Line 7; [import os] on line 8 is the standard library and the [def]
    that follows only binds a name. *)
Definition import_PIL : M unit := call ImportPIL (import_outcome E).

(** Lines 7-54, the body of the [try]. *)
Definition try_body : M unit :=
  import_PIL ;;;
  create_icon 16 "icon16.png" ;;;
  create_icon 32 "icon32.png" ;;;
  create_icon 48 "icon48.png" ;;;
  create_icon 128 "icon128.png" ;;;
  print_all success_banner.

(** Lines 56-67, the two [except] clauses. *)
Definition handlers : list (Clause unit) :=
  [ (is_ImportError, fun _ => print_all missing_pil_lines);
    (is_Exception, fun e => print_all (error_lines e)) ].

(** The whole script.  An exception no clause takes, or one a clause
    raises itself, ends the process with a traceback: the [inl] outcome. *)
Definition script : M unit := try_except try_body handlers.

End Script.

(** ** Reading a history *)

(** The images asked of [Image.new], in order. *)
Fixpoint renders (t : Trace) : list (string * Z * Z * string) :=
  match t with
  | [] => []
  | ImageNew mode w h color :: t' => (mode, w, h, color) :: renders t'
  | _ :: t' => renders t'
  end.

(** The files written, in order. *)
Fixpoint written (t : Trace) : list (string * Image) :=
  match t with
  | [] => []
  | Written path img :: t' => (path, img) :: written t'
  | _ :: t' => written t'
  end.

(** Standard output, in order. *)
Fixpoint printed (t : Trace) : list string :=
  match t with
  | [] => []
  | Printed line :: t' => line :: printed t'
  | _ :: t' => printed t'
  end.

(** The sizes asked of the font loader, in order. *)
Fixpoint font_requests (t : Trace) : list (option Z) :=
  match t with
  | [] => []
  | LoadDefault size :: t' => size :: font_requests t'
  | _ :: t' => font_requests t'
  end.

(** What a written file shows from outside: path, mode and dimensions. *)
Definition file_summary (f : string * Image) : string * string * Z * Z :=
  (fst f, im_mode (snd f), im_width (snd f), im_height (snd f)).

(** The four calls of lines 47-50 as data. *)
Definition icons : list (Z * string) :=
  [ (16, "icon16.png"); (32, "icon32.png"); (48, "icon48.png");
    (128, "icon128.png") ].

Fixpoint run_icons (E : Env) (l : list (Z * string)) : M unit :=
  match l with
  | [] => ret tt
  | (size, filename) :: l' => create_icon E size filename ;;; run_icons E l'
  end.

(** The lines the clause that takes an exception sets out to print; none
    when no clause takes it. *)
Definition handler_lines (e : Exn) : list string :=
  if is_ImportError e then missing_pil_lines
  else if is_Exception e then error_lines e
  else [].

(** Whether a clause of the script takes the exception. *)
Definition handled (e : Exn) : bool := is_ImportError e || is_Exception e.

(** What printing these lines leaves in the history when every [print]
    returns. *)
Definition printing (lines : list string) : Trace :=
  flat_map (fun line => [CallPrint line; Printed line]) lines.

(** Standard output accepts whatever is printed. *)
Definition stdout_accepts (E : Env) : Prop :=
  forall t, print_outcome E t = None.

(** The history ends with a call of [print] that has not returned. *)
Definition raised_by_print (t : Trace) : bool :=
  match List.last t ImportPIL with
  | CallPrint _ => true
  | _ => false
  end.

(** The events of the measuring step. *)
Definition bbox_events (font : option Font) : Trace :=
  match font with
  | Some f => [TextBBox 0 0 "S" f]
  | None => []
  end.

(** The background [#4285f4]. *)
Definition background : RGB := (66, 133, 244).

(** A line that announces a created icon. *)
Definition announces (line : string) : bool := String.prefix "✅ Created " line.

(** ** Environments to run the script in *)

Definition default_font : Font := {| font_name := "default" |}.

(** A 6 by 11 block standing for the rasterised label. *)
Definition block_glyph : Glyph :=
  fun dx dy =>
    if (0 <=? dx) && (dx <? 6) && (0 <=? dy) && (dy <? 11)
    then Some (255, 255, 255) else None.

(** Pillow installed and everything works. *)
Definition env_ok : Env :=
  {| import_outcome := fun _ => None;
     alloc_outcome := fun _ => None;
     draw_outcome := fun _ => None;
     load_default_outcome := fun _ => inr default_font;
     textbbox_outcome := fun _ => inr (0, 0, 6, 11);
     text_outcome := fun _ => inr block_glyph;
     makedirs_outcome := fun _ => None;
     save_outcome := fun _ => None;
     print_outcome := fun _ => None |}.

(** Pillow is not installed. *)
Definition env_no_pil : Env :=
  {| import_outcome := fun _ =>
       Some {| exn_class := ModuleNotFoundError;
               exn_str := "No module named 'PIL'" |};
     alloc_outcome := alloc_outcome env_ok;
     draw_outcome := draw_outcome env_ok;
     load_default_outcome := load_default_outcome env_ok;
     textbbox_outcome := textbbox_outcome env_ok;
     text_outcome := text_outcome env_ok;
     makedirs_outcome := makedirs_outcome env_ok;
     save_outcome := save_outcome env_ok;
     print_outcome := print_outcome env_ok |}.

(** The default font cannot be loaded. *)
Definition env_no_font : Env :=
  {| import_outcome := import_outcome env_ok;
     alloc_outcome := alloc_outcome env_ok;
     draw_outcome := draw_outcome env_ok;
     load_default_outcome := fun _ =>
       inl {| exn_class := OSError; exn_str := "cannot open resource" |};
     textbbox_outcome := textbbox_outcome env_ok;
     text_outcome := text_outcome env_ok;
     makedirs_outcome := makedirs_outcome env_ok;
     save_outcome := save_outcome env_ok;
     print_outcome := print_outcome env_ok |}.

(** A Pillow whose [textbbox] refuses the bitmap default font. *)
Definition env_bbox_fails : Env :=
  {| import_outcome := import_outcome env_ok;
     alloc_outcome := alloc_outcome env_ok;
     draw_outcome := draw_outcome env_ok;
     load_default_outcome := load_default_outcome env_ok;
     textbbox_outcome := fun _ =>
       inl {| exn_class := ValueError;
              exn_str := "Only supported for TrueType fonts" |};
     text_outcome := text_outcome env_ok;
     makedirs_outcome := makedirs_outcome env_ok;
     save_outcome := save_outcome env_ok;
     print_outcome := print_outcome env_ok |}.

(** The disk fills up after two files: the third [save] raises. *)
Definition env_disk_full : Env :=
  {| import_outcome := import_outcome env_ok;
     alloc_outcome := alloc_outcome env_ok;
     draw_outcome := draw_outcome env_ok;
     load_default_outcome := load_default_outcome env_ok;
     textbbox_outcome := textbbox_outcome env_ok;
     text_outcome := text_outcome env_ok;
     makedirs_outcome := makedirs_outcome env_ok;
     save_outcome := fun t =>
       if (2 <=? List.length (written t))%nat
       then Some {| exn_class := OSError;
                    exn_str := "[Errno 28] No space left on device" |}
       else None;
     print_outcome := print_outcome env_ok |}.

(** ** Landmarks of one [create_icon] run *)

(** The calls every run starts with when nothing raises. *)
Definition icon_prefix (size : Z) : Trace :=
  [ImageNew "RGB" size size "#4285f4"; DrawNew; LoadDefault None].

(** The value of [font] after lines 19-23, run at history [t]. *)
Definition font_at (E : Env) (t : Trace) : option Font :=
  match fst (resolve_font E t) with inr f => f | inl _ => None end.

(** What lines 27-34 yield at history [t]. *)
Definition extent_at (E : Env) (font : option Font) (font_size : Z) (t : Trace)
  : Exn + (Z * Z) := fst (measure E font font_size t).

(** The call of line 39 for a label of extent [wh]. *)
Definition draw_call (size : Z) (font : option Font) (wh : Z * Z) : Event :=
  DrawText (fst (placement size (fst wh) (snd wh)))
           (snd (placement size (fst wh) (snd wh))) "S" "white" font.

(** The image line 39 leaves behind. *)
Definition drawn (size : Z) (wh : Z * Z) (g : Glyph) : Image :=
  paste (uniform "RGB" size size background) g
        (fst (placement size (fst wh) (snd wh)))
        (snd (placement size (fst wh) (snd wh))).

(** Lines 42-44 up to the call of [print]. *)
Definition icon_saved (filename : string) (size : Z) (img : Image) : Trace :=
  [ MakeDirs "extension/icons" true; Save (icon_path filename);
    Written (icon_path filename) img; CallPrint (created_line filename size) ].

(** Lines 42-44 when nothing raises. *)
Definition icon_suffix (filename : string) (size : Z) (img : Image) : Trace :=
  icon_saved filename size img ++ [Printed (created_line filename size)].

(** ** The ways one [create_icon] run can go

    [icon_run E size filename t r t'] lists them by the line that ends the
    run, with the outcome of every call made on the way. *)

Section IconRun.

Variables (E : Env) (size : Z) (filename : string) (t : Trace).

Let t1 : Trace := t ++ [ImageNew "RGB" size size "#4285f4"].
Let t2 : Trace := t ++ [ImageNew "RGB" size size "#4285f4"; DrawNew].
Let t3 : Trace := t ++ icon_prefix size.
Let font : option Font := font_at E t2.
Let t4 : Trace := t3 ++ bbox_events font.
Let t5 (wh : Z * Z) : Trace := t4 ++ [draw_call size font wh].
Let t6 (wh : Z * Z) : Trace := t5 wh ++ [MakeDirs "extension/icons" true].
Let t7 (wh : Z * Z) : Trace := t6 wh ++ [Save (icon_path filename)].
Let t8 (wh : Z * Z) (g : Glyph) : Trace :=
  t5 wh ++ icon_saved filename size (drawn size wh g).

(** Lines 13-14 went through. *)
Definition started : Prop :=
  0 <= size <= INT_MAX /\ alloc_outcome E t1 = None /\
  draw_outcome E t2 = None.

(** Lines 13-37 went through, with this font size and label extent. *)
Definition measured (fs : Z) (wh : Z * Z) : Prop :=
  started /\ font_size_of size = inr fs /\ extent_at E font fs t3 = inr wh.

Inductive icon_run : Exn + unit -> Trace -> Prop :=
| run_new_rejects :
    size < 0 ->
    icon_run (inl (value_error "Width and height must be >= 0")) t1
| run_new_overflows :
    INT_MAX < size ->
    icon_run (inl c_int_overflow) t1
| run_new_raises e :
    0 <= size <= INT_MAX -> alloc_outcome E t1 = Some e ->
    icon_run (inl e) t1
| run_Draw_raises e :
    0 <= size <= INT_MAX -> alloc_outcome E t1 = None ->
    draw_outcome E t2 = Some e ->
    icon_run (inl e) t2
| run_font_size_raises e :
    started -> font_size_of size = inl e ->
    icon_run (inl e) t2
| run_textbbox_raises e fs :
    started -> font_size_of size = inr fs ->
    extent_at E font fs t3 = inl e ->
    icon_run (inl e) t4
| run_text_raises e fs wh :
    measured fs wh -> text_outcome E (t5 wh) = inl e ->
    icon_run (inl e) (t5 wh)
| run_makedirs_raises e fs wh g :
    measured fs wh -> text_outcome E (t5 wh) = inr g ->
    makedirs_outcome E (t6 wh) = Some e ->
    icon_run (inl e) (t6 wh)
| run_save_raises e fs wh g :
    measured fs wh -> text_outcome E (t5 wh) = inr g ->
    makedirs_outcome E (t6 wh) = None ->
    save_outcome E (t7 wh) = Some e ->
    icon_run (inl e) (t7 wh)
| run_print_raises e fs wh g :
    measured fs wh -> text_outcome E (t5 wh) = inr g ->
    makedirs_outcome E (t6 wh) = None ->
    save_outcome E (t7 wh) = None ->
    print_outcome E (t8 wh g) = Some e ->
    icon_run (inl e) (t8 wh g)
| run_created fs wh g :
    measured fs wh -> text_outcome E (t5 wh) = inr g ->
    makedirs_outcome E (t6 wh) = None ->
    save_outcome E (t7 wh) = None ->
    print_outcome E (t8 wh g) = None ->
    icon_run (inr tt) (t5 wh ++ icon_suffix filename size (drawn size wh g)).

End IconRun.

(** ** What a batch of icons should leave in the history *)

Definition batch_renders (l : list (Z * string)) : list (string * Z * Z * string) :=
  map (fun sf => ("RGB", fst sf, fst sf, "#4285f4")) l.

Definition batch_files (l : list (Z * string)) : list (string * string * Z * Z) :=
  map (fun sf => (icon_path (snd sf), "RGB", fst sf, fst sf)) l.

Definition batch_lines (l : list (Z * string)) : list string :=
  map (fun sf => created_line (snd sf) (fst sf)) l.

(** Every announcement in [dt] is the line of an icon of [l] and comes
    after the event that wrote that icon's file. *)
Definition saved_before_announced (l : list (Z * string)) (dt : Trace) : Prop :=
  forall pre line post,
    dt = pre ++ Printed line :: post ->
    announces line = true ->
    exists size filename img,
      In (size, filename) l /\
      line = created_line filename size /\
      In (Written (icon_path filename) img) pre /\
      file_summary (icon_path filename, img)
      = (icon_path filename, "RGB", size, size).

(** ** Right shifts in binary64 rounding *)

(** What [k] right shifts of [M] leave: the quotient, and in the two flags
    how the remainder compares with half a unit. *)
Definition shifted (M k : Z) (mrs : shr_record) : Prop :=
  0 <= shr_m mrs /\
  exists rem,
    M = shr_m mrs * 2 ^ k + rem /\ 0 <= rem < 2 ^ k /\
    (shr_r mrs = true <-> 2 ^ k <= 2 * rem) /\
    (shr_s mrs = true <-> rem <> 0 /\ 2 * rem <> 2 ^ k).

(** ** The font request the specification describes

    A run asks the font loader for the font size floor(0.6 * size). *)
Definition requests_font_size (E : Env) (size : Z) (filename : string)
           (t : Trace) : Prop :=
  In (LoadDefault (Some (6 * size / 10))) (snd (create_icon E size filename t)).

(** ** Two more environments *)

(** The user interrupts the first [save]. *)
Definition env_interrupted : Env :=
  {| import_outcome := import_outcome env_ok;
     alloc_outcome := alloc_outcome env_ok;
     draw_outcome := draw_outcome env_ok;
     load_default_outcome := load_default_outcome env_ok;
     textbbox_outcome := textbbox_outcome env_ok;
     text_outcome := text_outcome env_ok;
     makedirs_outcome := makedirs_outcome env_ok;
     save_outcome := fun _ =>
       Some {| exn_class := KeyboardInterrupt; exn_str := "" |};
     print_outcome := print_outcome env_ok |}.

(** Pillow imports, but its text renderer raises [ImportError] for a
    missing C module once the second icon is being drawn. *)
Definition env_late_import_error : Env :=
  {| import_outcome := import_outcome env_ok;
     alloc_outcome := alloc_outcome env_ok;
     draw_outcome := draw_outcome env_ok;
     load_default_outcome := load_default_outcome env_ok;
     textbbox_outcome := textbbox_outcome env_ok;
     text_outcome := fun t =>
       if (1 <=? List.length (written t))%nat
       then inl {| exn_class := ImportError;
                   exn_str := "The _imagingft C module is not installed" |}
       else inr block_glyph;
     makedirs_outcome := makedirs_outcome env_ok;
     save_outcome := save_outcome env_ok;
     print_outcome := print_outcome env_ok |}.

(** Whether every character of a line is ASCII. *)
Fixpoint ascii_only (line : string) : bool :=
  match line with
  | EmptyString => true
  | String c rest => (nat_of_ascii c <? 128)%nat && ascii_only rest
  end.

Definition encode_error : Exn :=
  {| exn_class := UnicodeEncodeError;
     exn_str := "'ascii' codec can't encode character" |}.

(** A standard output in the ASCII encoding: [print] raises for a line
    with any other character and shows nothing of it. *)
Definition ascii_stdout (t : Trace) : option Exn :=
  match List.last t ImportPIL with
  | CallPrint line => if ascii_only line then None else Some encode_error
  | _ => None
  end.

(** Everything works, on an ASCII standard output. *)
Definition env_ascii_stdout : Env :=
  {| import_outcome := import_outcome env_ok;
     alloc_outcome := alloc_outcome env_ok;
     draw_outcome := draw_outcome env_ok;
     load_default_outcome := load_default_outcome env_ok;
     textbbox_outcome := textbbox_outcome env_ok;
     text_outcome := text_outcome env_ok;
     makedirs_outcome := makedirs_outcome env_ok;
     save_outcome := save_outcome env_ok;
     print_outcome := ascii_stdout |}.

(** Pillow is not installed, and standard output is ASCII. *)
Definition env_no_pil_ascii : Env :=
  {| import_outcome := import_outcome env_no_pil;
     alloc_outcome := alloc_outcome env_ok;
     draw_outcome := draw_outcome env_ok;
     load_default_outcome := load_default_outcome env_ok;
     textbbox_outcome := textbbox_outcome env_ok;
     text_outcome := text_outcome env_ok;
     makedirs_outcome := makedirs_outcome env_ok;
     save_outcome := save_outcome env_ok;
     print_outcome := ascii_stdout |}.

(** The first line of the success banner (line 52). *)
Definition banner_line : string :=
  (nl ++ "🎉 All icons created successfully!")%string.

(** * Facts *)

(** ** Running the monad *)

Section Runs.
Context {A B : Type}.

Lemma bind_inr (m : M A) (k : A -> M B) t b t' :
  bind m k t = (inr b, t') ->
  exists a t1, m t = (inr a, t1) /\ k a t1 = (inr b, t').
Proof.
  unfold bind. destruct (m t) as [[e|a] t1]; [discriminate|]. eauto.
Qed.

Lemma bind_inl (m : M A) (k : A -> M B) t e t' :
  bind m k t = (inl e, t') ->
  m t = (inl e, t') \/ exists a t1, m t = (inr a, t1) /\ k a t1 = (inl e, t').
Proof.
  unfold bind. destruct (m t) as [[e1|a] t1]; intros H.
  - left. now inversion H.
  - right. eauto.
Qed.

Lemma bind_step (m : M A) (k : A -> M B) t a t1 :
  m t = (inr a, t1) -> bind m k t = k a t1.
Proof. unfold bind. now intros ->. Qed.

Lemma bind_stop (m : M A) (k : A -> M B) t e t1 :
  m t = (inl e, t1) -> bind m k t = (inl e, t1).
Proof. unfold bind. now intros ->. Qed.
End Runs.

Ltac norm_trace :=
  repeat (progress (repeat (rewrite <- app_assoc in * ); cbn [app] in * )).

(** ** One lemma per call *)

Lemma call_inv ev o t r t' :
  call ev o t = (r, t') ->
  t' = t ++ [ev] /\
  match r with
  | inr _ => o (t ++ [ev]) = None
  | inl e => o (t ++ [ev]) = Some e
  end.
Proof.
  unfold call. destruct (o (t ++ [ev])) eqn:H; intros [= <- <-]; auto.
Qed.

Lemma Image_new_inv E size t r t' :
  Image_new E "RGB" (size, size) "#4285f4" t = (r, t') ->
  t' = t ++ [ImageNew "RGB" size size "#4285f4"] /\
  match r with
  | inr img => img = uniform "RGB" size size background /\
               0 <= size <= INT_MAX /\ alloc_outcome E t' = None
  | inl e => (size < 0 /\ e = value_error "Width and height must be >= 0") \/
             (INT_MAX < size /\ e = c_int_overflow) \/
             (0 <= size <= INT_MAX /\ alloc_outcome E t' = Some e)
  end.
Proof.
  unfold Image_new. cbn [fst snd].
  change (getrgb "#4285f4") with (Some background). cbv iota beta.
  destruct (Z.ltb_spec size 0) as [Hs|Hs]; cbn [orb].
  - intros [= <- <-]. split; [reflexivity|]. left. auto.
  - destruct (Z.ltb_spec INT_MAX size) as [Hm|Hm]; cbn [orb].
    + intros [= <- <-]. split; [reflexivity|]. right. left. auto.
    + destruct (alloc_outcome E _) eqn:Ha; intros [= <- <-];
        (split; [reflexivity|]).
      * right. right. auto.
      * auto.
Qed.

Lemma resolve_font_eq E t :
  resolve_font E t = (inr (font_at E t), t ++ [LoadDefault None]).
Proof.
  unfold font_at, resolve_font, try_except, bind, ImageFont_load_default, call_value.
  destruct (load_default_outcome E _); reflexivity.
Qed.

Lemma font_at_eq E t :
  font_at E t =
  match load_default_outcome E (t ++ [LoadDefault None]) with
  | inr f => Some f
  | inl _ => None
  end.
Proof.
  unfold font_at, resolve_font, try_except, bind, ImageFont_load_default, call_value.
  destruct (load_default_outcome E _); reflexivity.
Qed.

Lemma measure_eq E font fs t :
  measure E font fs t = (extent_at E font fs t, t ++ bbox_events font).
Proof.
  unfold extent_at. destruct font as [f|]; cbn [measure bbox_events].
  - unfold bind, draw_textbbox, call_value. cbn [fst snd].
    destruct (textbbox_outcome E _) as [e|[[[b0 b1] b2] b3]]; reflexivity.
  - unfold ret. cbn [fst]. now rewrite app_nil_r.
Qed.

Lemma extent_at_font E f fs t :
  extent_at E (Some f) fs t =
  match textbbox_outcome E (t ++ [TextBBox 0 0 "S" f]) with
  | inr (b0, b1, b2, b3) => inr (b2 - b0, b3 - b1)
  | inl e => inl e
  end.
Proof.
  unfold extent_at. cbn [measure]. unfold bind, draw_textbbox, call_value.
  cbn [fst snd].
  destruct (textbbox_outcome E _) as [e|[[[b0 b1] b2] b3]]; reflexivity.
Qed.

Lemma extent_at_no_font E fs t :
  extent_at E None fs t = inr (fs / 2, fs).
Proof. reflexivity. Qed.

Lemma draw_text_inv E img x y font t r t' :
  draw_text E img (x, y) "S" "white" font t = (r, t') ->
  t' = t ++ [DrawText x y "S" "white" font] /\
  match r with
  | inr img' => exists g, text_outcome E t' = inr g /\ img' = paste img g x y
  | inl e => text_outcome E t' = inl e
  end.
Proof.
  unfold draw_text, bind, call_value, ret. cbn [fst snd].
  destruct (text_outcome E _) eqn:Hg; intros [= <- <-]; eauto.
Qed.

Lemma Image_save_inv E img path t r t' :
  Image_save E img path t = (r, t') ->
  match r with
  | inr _ => t' = t ++ [Save path; Written path img] /\
             save_outcome E (t ++ [Save path]) = None
  | inl e => t' = t ++ [Save path] /\ save_outcome E t' = Some e
  end.
Proof.
  unfold Image_save, bind, call.
  destruct (save_outcome E _) eqn:H; intros [= <- <-].
  - auto.
  - rewrite <- app_assoc. auto.
Qed.

Lemma print_inv E line t r t' :
  print E line t = (r, t') ->
  match r with
  | inr _ => t' = t ++ [CallPrint line; Printed line] /\
             print_outcome E (t ++ [CallPrint line]) = None
  | inl e => t' = t ++ [CallPrint line] /\ print_outcome E t' = Some e
  end.
Proof.
  unfold print, bind, call.
  destruct (print_outcome E _) eqn:H; intros [= <- <-].
  - auto.
  - rewrite <- app_assoc. auto.
Qed.

(** ** [create_icon] and [icon_run] describe the same runs *)

Ltac by_run c :=
  match goal with
  | |- icon_run ?E ?s ?f ?t ?r _ =>
      let H := fresh in
      eassert (H : icon_run E s f t r _)
        by (eapply c;
            first [ eassumption
                  | unfold icon_prefix, icon_suffix, icon_saved in *;
                    norm_trace; eassumption ]);
      unfold icon_prefix, icon_suffix, icon_saved in H; norm_trace; exact H
  end.

Lemma create_icon_sound E size fn t r t' :
  create_icon E size fn t = (r, t') -> icon_run E size fn t r t'.
Proof.
  unfold create_icon. intros H.
  destruct (Image_new E "RGB" (size, size) "#4285f4" t) as [[e|img] t1] eqn:H1.
  { rewrite (bind_stop _ _ _ _ _ H1) in H. injection H as <- <-.
    apply Image_new_inv in H1 as [-> [[Hs ->]|[[Hs ->]|[Hs Ha]]]];
      now constructor. }
  rewrite (bind_step _ _ _ _ _ H1) in H.
  apply Image_new_inv in H1 as [-> (-> & Hs & Ha)].
  destruct (ImageDraw_Draw E (t ++ [ImageNew "RGB" size size "#4285f4"]))
    as [[e|[]] t2] eqn:H2.
  { rewrite (bind_stop _ _ _ _ _ H2) in H. injection H as <- <-.
    apply call_inv in H2 as [-> Hd]. norm_trace. now constructor. }
  rewrite (bind_step _ _ _ _ _ H2) in H.
  apply call_inv in H2 as [-> Hd]. norm_trace.
  assert (Hst : started E size t) by (split; [exact Hs|split; assumption]).
  unfold bind at 1, eval in H.
  destruct (font_size_of size) as [e|fs] eqn:Hf.
  { injection H as <- <-. now constructor. }
  rewrite (bind_step _ _ _ _ _ (resolve_font_eq _ _)) in H. norm_trace.
  match type of H with bind (measure E ?f ?s) _ ?tt = _ =>
    pose proof (measure_eq E f s tt) as Hm;
    destruct (extent_at E f s tt) as [e|wh] eqn:Hx
  end.
  { rewrite (bind_stop _ _ _ _ _ Hm) in H. injection H as <- <-.
    by_run run_textbbox_raises. }
  rewrite (bind_step _ _ _ _ _ Hm) in H. clear Hm.
  assert (Hms : measured E size t fs wh) by (split; [exact Hst|split; assumption]).
  match type of H with bind (draw_text E ?i ?xy ?a ?b ?f) _ ?tt = _ =>
    destruct (draw_text E i xy a b f tt) as [[e|img] t5] eqn:H5
  end.
  { rewrite (bind_stop _ _ _ _ _ H5) in H. injection H as <- <-.
    apply draw_text_inv in H5 as [-> Hg]. by_run run_text_raises. }
  rewrite (bind_step _ _ _ _ _ H5) in H.
  apply draw_text_inv in H5 as [-> (g & Hg & ->)].
  match type of H with bind (os_makedirs E ?p ?b) _ ?tt = _ =>
    destruct (os_makedirs E p b tt) as [[e|[]] t6] eqn:H6
  end.
  { rewrite (bind_stop _ _ _ _ _ H6) in H. injection H as <- <-.
    apply call_inv in H6 as [-> Hk]. by_run run_makedirs_raises. }
  rewrite (bind_step _ _ _ _ _ H6) in H.
  apply call_inv in H6 as [-> Hk].
  match type of H with bind (Image_save E ?i ?p) _ ?tt = _ =>
    destruct (Image_save E i p tt) as [[e|[]] t7] eqn:H7
  end.
  { rewrite (bind_stop _ _ _ _ _ H7) in H. injection H as <- <-.
    apply Image_save_inv in H7 as [-> Hv]. by_run run_save_raises. }
  rewrite (bind_step _ _ _ _ _ H7) in H.
  apply Image_save_inv in H7 as [-> Hv].
  destruct r as [e|[]]; apply print_inv in H as [-> Hp].
  - by_run run_print_raises.
  - by_run run_created.
Qed.

Lemma call_ok ev o t :
  o (t ++ [ev]) = None -> call ev o t = (inr tt, t ++ [ev]).
Proof. unfold call. now intros ->. Qed.

Lemma call_raises ev o t e :
  o (t ++ [ev]) = Some e -> call ev o t = (inl e, t ++ [ev]).
Proof. unfold call. now intros ->. Qed.

Lemma Image_new_ok E size t :
  0 <= size <= INT_MAX ->
  alloc_outcome E (t ++ [ImageNew "RGB" size size "#4285f4"]) = None ->
  Image_new E "RGB" (size, size) "#4285f4" t =
  (inr (uniform "RGB" size size background),
   t ++ [ImageNew "RGB" size size "#4285f4"]).
Proof.
  intros Hs Ha. unfold Image_new. cbn [fst snd].
  change (getrgb "#4285f4") with (Some background). cbv iota beta.
  destruct (Z.ltb_spec size 0); [lia|].
  destruct (Z.ltb_spec INT_MAX size); [lia|]. cbn [orb]. now rewrite Ha.
Qed.

Lemma Image_new_raises E size t e :
  0 <= size <= INT_MAX ->
  alloc_outcome E (t ++ [ImageNew "RGB" size size "#4285f4"]) = Some e ->
  Image_new E "RGB" (size, size) "#4285f4" t =
  (inl e, t ++ [ImageNew "RGB" size size "#4285f4"]).
Proof.
  intros Hs Ha. unfold Image_new. cbn [fst snd].
  change (getrgb "#4285f4") with (Some background). cbv iota beta.
  destruct (Z.ltb_spec size 0); [lia|].
  destruct (Z.ltb_spec INT_MAX size); [lia|]. cbn [orb]. now rewrite Ha.
Qed.

Lemma Image_new_rejects E size t :
  size < 0 ->
  Image_new E "RGB" (size, size) "#4285f4" t =
  (inl (value_error "Width and height must be >= 0"),
   t ++ [ImageNew "RGB" size size "#4285f4"]).
Proof.
  intros Hs. unfold Image_new. cbn [fst snd].
  change (getrgb "#4285f4") with (Some background). cbv iota beta.
  destruct (Z.ltb_spec size 0); [|lia]. reflexivity.
Qed.

Lemma Image_new_overflows E size t :
  INT_MAX < size ->
  Image_new E "RGB" (size, size) "#4285f4" t =
  (inl c_int_overflow, t ++ [ImageNew "RGB" size size "#4285f4"]).
Proof.
  intros Hs. unfold Image_new. cbn [fst snd].
  change (getrgb "#4285f4") with (Some background). cbv iota beta.
  destruct (Z.ltb_spec size 0); [unfold INT_MAX in Hs; lia|].
  destruct (Z.ltb_spec INT_MAX size); [|lia]. reflexivity.
Qed.

Lemma eval_step {A B} (a : A) (k : A -> M B) t :
  bind (eval (inr a)) k t = k a t.
Proof. reflexivity. Qed.

Lemma eval_stop {A B} e (k : A -> M B) t :
  bind (eval (inl e)) k t = (inl e, t).
Proof. reflexivity. Qed.

Lemma measure_ok E font fs t wh :
  extent_at E font fs t = inr wh ->
  measure E font fs t = (inr wh, t ++ bbox_events font).
Proof. intros H. now rewrite measure_eq, H. Qed.

Lemma measure_raises E font fs t e :
  extent_at E font fs t = inl e ->
  measure E font fs t = (inl e, t ++ bbox_events font).
Proof. intros H. now rewrite measure_eq, H. Qed.

Lemma draw_text_ok E img x y font t g :
  text_outcome E (t ++ [DrawText x y "S" "white" font]) = inr g ->
  draw_text E img (x, y) "S" "white" font t =
  (inr (paste img g x y), t ++ [DrawText x y "S" "white" font]).
Proof. unfold draw_text, bind, call_value, ret. cbn [fst snd]. now intros ->. Qed.

Lemma draw_text_raises E img x y font t e :
  text_outcome E (t ++ [DrawText x y "S" "white" font]) = inl e ->
  draw_text E img (x, y) "S" "white" font t =
  (inl e, t ++ [DrawText x y "S" "white" font]).
Proof. unfold draw_text, bind, call_value, ret. cbn [fst snd]. now intros ->. Qed.

Lemma Image_save_ok E img path t :
  save_outcome E (t ++ [Save path]) = None ->
  Image_save E img path t = (inr tt, t ++ [Save path; Written path img]).
Proof.
  unfold Image_save, bind, call. intros ->. now rewrite <- app_assoc.
Qed.

Lemma print_ok E line t :
  print_outcome E (t ++ [CallPrint line]) = None ->
  print E line t = (inr tt, t ++ [CallPrint line; Printed line]).
Proof.
  unfold print, bind, call. intros ->. now rewrite <- app_assoc.
Qed.

Lemma print_raises E line t e :
  print_outcome E (t ++ [CallPrint line]) = Some e ->
  print E line t = (inl e, t ++ [CallPrint line]).
Proof. unfold print, bind, call. now intros ->. Qed.

Lemma Image_save_raises E img path t e :
  save_outcome E (t ++ [Save path]) = Some e ->
  Image_save E img path t = (inl e, t ++ [Save path]).
Proof. unfold Image_save, bind, call. now intros ->. Qed.

Ltac facts :=
  unfold measured, started, icon_prefix, icon_suffix, icon_saved, draw_call, drawn,
    placement in *;
  cbn [fst snd] in *;
  repeat match goal with H : _ /\ _ |- _ => destruct H end;
  norm_trace.

Ltac known := norm_trace; first [eassumption | lia].

Ltac step :=
  first
    [ erewrite bind_step by
        (first [ apply Image_new_ok; known | apply call_ok; known
               | apply resolve_font_eq
               | apply measure_ok; known | apply draw_text_ok; known
               | apply Image_save_ok; known ])
    | erewrite bind_stop by
        (first [ apply Image_new_raises; known | apply Image_new_rejects; known
               | apply Image_new_overflows; known
               | apply call_raises; known | apply measure_raises; known
               | apply draw_text_raises; known
               | apply Image_save_raises; known ]) ];
  norm_trace.

Ltac run :=
  repeat first
    [ step
    | rewrite eval_step
    | rewrite eval_stop
    | match goal with
      | H : font_size_of ?s = _ |- context [font_size_of ?s] => rewrite H
      end ].

Lemma create_icon_complete E size fn t r t' :
  icon_run E size fn t r t' -> create_icon E size fn t = (r, t').
Proof.
  intros H. destruct H; facts; unfold create_icon, placement; cbn [fst snd];
    run;
    first [ reflexivity
          | erewrite print_ok by known; norm_trace; reflexivity
          | erewrite print_raises by known; norm_trace; reflexivity ].
Qed.

Theorem create_icon_spec E size fn t r t' :
  create_icon E size fn t = (r, t') <-> icon_run E size fn t r t'.
Proof. split; [apply create_icon_sound | apply create_icon_complete]. Qed.



(** ** Reading a history piece by piece *)

Lemma renders_app a b : renders (a ++ b) = renders a ++ renders b.
Proof.
  induction a as [|ev a IH]; [reflexivity|].
  destruct ev; cbn [app renders]; now rewrite IH.
Qed.

Lemma written_app a b : written (a ++ b) = written a ++ written b.
Proof.
  induction a as [|ev a IH]; [reflexivity|].
  destruct ev; cbn [app written]; now rewrite IH.
Qed.

Lemma printed_app a b : printed (a ++ b) = printed a ++ printed b.
Proof.
  induction a as [|ev a IH]; [reflexivity|].
  destruct ev; cbn [app printed]; now rewrite IH.
Qed.

Lemma font_requests_app a b :
  font_requests (a ++ b) = font_requests a ++ font_requests b.
Proof.
  induction a as [|ev a IH]; [reflexivity|].
  destruct ev; cbn [app font_requests]; now rewrite IH.
Qed.

Lemma bbox_events_silent font :
  renders (bbox_events font) = [] /\ written (bbox_events font) = [] /\
  printed (bbox_events font) = [] /\ font_requests (bbox_events font) = [].
Proof. destruct font; repeat split. Qed.

(** ** What one run adds to the history *)

(** The events a run of [create_icon] appends. *)
Lemma icon_run_delta E size fn t r t' :
  icon_run E size fn t r t' ->
  exists dt, t' = t ++ dt /\
    renders dt = [("RGB", size, size, "#4285f4")] /\
    match r with
    | inr _ =>
        exists img, written dt = [(icon_path fn, img)] /\
          file_summary (icon_path fn, img) = (icon_path fn, "RGB", size, size) /\
          printed dt = [created_line fn size]
    | inl e =>
        printed dt = [] /\
        (written dt = [] \/
         exists img pre,
           written dt = [(icon_path fn, img)] /\
           file_summary (icon_path fn, img) = (icon_path fn, "RGB", size, size) /\
           dt = pre ++ [CallPrint (created_line fn size)] /\
           print_outcome E t' = Some e)
    end.
Proof.
  intros H.
  destruct H; unfold icon_prefix, icon_suffix, icon_saved, draw_call in *;
    norm_trace; eexists; (split; [reflexivity|]);
    cbn [renders written printed app];
    rewrite ?renders_app, ?written_app, ?printed_app;
    destruct (bbox_events_silent (font_at E
      (t ++ [ImageNew "RGB" size size "#4285f4"; DrawNew]))) as (Hr & Hw & Hp & _);
    rewrite ?Hr, ?Hw, ?Hp; cbn [renders written printed app]; eauto.
  split; [reflexivity|]. split; [reflexivity|]. right.
  eexists _, (ImageNew "RGB" size size "#4285f4" :: DrawNew :: LoadDefault None
                :: bbox_events _ ++ [_; _; _; _]).
  split; [reflexivity|]. split; [reflexivity|].
  split; [now norm_trace|]. assumption.
Qed.

Lemma last_app_cons {A} (l l' : list A) (x d : A) :
  last (l ++ x :: l') d = last (x :: l') d.
Proof.
  induction l as [|y l IH]; [reflexivity|].
  cbn [app]. rewrite <- IH. cbn [last].
  destruct (l ++ x :: l') eqn:H; [|reflexivity].
  now destruct l.
Qed.

(** A run that raises has written its file exactly when it was the
    announcement on line 44 that raised. *)
Lemma icon_run_raised E size fn t e t' :
  icon_run E size fn t (inl e) t' ->
  exists dt, t' = t ++ dt /\
    renders dt = [("RGB", size, size, "#4285f4")] /\
    printed dt = [] /\
    if raised_by_print t' then
      print_outcome E t' = Some e /\
      exists img pre,
        written dt = [(icon_path fn, img)] /\
        file_summary (icon_path fn, img) = (icon_path fn, "RGB", size, size) /\
        dt = pre ++ [CallPrint (created_line fn size)]
    else written dt = [].
Proof.
  intros H. remember (inl e) as r eqn:Hr.
  destruct H; try discriminate; injection Hr as Hr; subst e;
    unfold icon_prefix, icon_suffix, icon_saved, draw_call in *;
    destruct (font_at E (t ++ [ImageNew "RGB" size size "#4285f4"; DrawNew]));
    cbn [bbox_events] in *; norm_trace;
    eexists; (split; [reflexivity|]);
    (split; [reflexivity|]); (split; [reflexivity|]);
    unfold raised_by_print; rewrite last_app_cons; cbn [last];
    try reflexivity.
  all: split; [assumption|].
  all: first [ solve [eexists _, [_; _; _; _; _; _; _; _]; repeat split]
             | solve [eexists _, [_; _; _; _; _; _; _]; repeat split] ].
Qed.

(** ** Splitting a history at an event *)

Lemma split_app {A} (a b pre post : list A) (x : A) :
  a ++ b = pre ++ x :: post ->
  (exists post1, a = pre ++ x :: post1 /\ post = post1 ++ b) \/
  (exists pre2, pre = a ++ pre2 /\ b = pre2 ++ x :: post).
Proof.
  revert pre. induction a as [|y a IH]; intros pre H.
  - right. exists pre. auto.
  - destruct pre as [|z pre]; cbn in H; injection H as -> H.
    + left. exists a. auto.
    + destruct (IH _ H) as [(p & -> & ->)|(p & -> & ->)].
      * left. exists p. auto.
      * right. exists p. auto.
Qed.

Lemma printed_In line t : In (Printed line) t -> In line (printed t).
Proof.
  induction t as [|ev t IH]; [easy|]. intros [->|H].
  - now left.
  - destruct ev; cbn; auto.
Qed.

Lemma no_print_split t pre line post :
  printed t = [] -> t <> pre ++ Printed line :: post.
Proof.
  intros Hp ->. rewrite printed_app in Hp. cbn in Hp.
  now destruct (printed pre).
Qed.

Lemma last_print_split (a : Trace) l0 pre line post :
  printed a = [] ->
  a ++ [Printed l0] = pre ++ Printed line :: post ->
  pre = a /\ line = l0 /\ post = [].
Proof.
  intros Hp H. apply split_app in H as [(p & -> & _)|(p & -> & H)].
  - exfalso. eapply no_print_split; [exact Hp | reflexivity].
  - destruct p as [|ev p]; cbn in H.
    + injection H as <- <-. now rewrite app_nil_r.
    + injection H as _ H. now destruct p.
Qed.

(** A run that returns ends with the file written and then announced. *)
Lemma icon_run_created_shape E size fn t t' :
  icon_run E size fn t (inr tt) t' ->
  exists b img,
    t' = t ++ b ++ [Printed (created_line fn size)] /\
    printed b = [] /\
    In (Written (icon_path fn) img) b /\
    file_summary (icon_path fn, img) = (icon_path fn, "RGB", size, size).
Proof.
  intros H. remember (inr tt) as r eqn:Hr. destruct H; try discriminate.
  exists (icon_prefix size
            ++ bbox_events (font_at E (t ++ [ImageNew "RGB" size size "#4285f4"; DrawNew]))
            ++ [draw_call size
                  (font_at E (t ++ [ImageNew "RGB" size size "#4285f4"; DrawNew])) wh]
            ++ icon_saved fn size (drawn size wh g)),
         (drawn size wh g).
  split; [unfold icon_suffix; now rewrite <- !app_assoc|].
  split; [|split; [|reflexivity]].
  - unfold icon_prefix, icon_saved, draw_call. cbn [app printed].
    rewrite !printed_app.
    now destruct (bbox_events_silent (font_at E
      (t ++ [ImageNew "RGB" size size "#4285f4"; DrawNew]))) as (_ & _ & -> & _).
  - rewrite !in_app_iff. right. right. right.
    unfold icon_saved. cbn [In]. auto.
Qed.

(** ** The batch *)

Lemma printing_silent lines :
  printed (printing lines) = lines /\ written (printing lines) = [] /\
  renders (printing lines) = [].
Proof.
  induction lines as [|l ls (Hp & Hw & Hr)]; [now repeat split|].
  cbn [printing flat_map app printed written renders]. fold (printing ls).
  rewrite Hp, Hw, Hr. now repeat split.
Qed.

(** [print_all] shows the lines in order up to the first [print] that
    raises, and ends with that exception. *)
Lemma print_all_cases E lines t r t' :
  print_all E lines t = (r, t') ->
  (r = inr tt /\ t' = t ++ printing lines) \/
  (exists e shown line rest,
      r = inl e /\ lines = shown ++ line :: rest /\
      t' = t ++ printing shown ++ [CallPrint line] /\
      print_outcome E t' = Some e).
Proof.
  revert t. induction lines as [|l ls IH]; intros t H; cbn [print_all] in H.
  - injection H as <- <-. left. cbn. now rewrite app_nil_r.
  - destruct (print E l t) as [[e|[]] t1] eqn:Hp.
    + rewrite (bind_stop _ _ _ _ _ Hp) in H. injection H as <- <-.
      apply print_inv in Hp as [-> Ho].
      right. exists e, [], l, ls. cbn [printing flat_map app]. auto.
    + rewrite (bind_step _ _ _ _ _ Hp) in H.
      apply print_inv in Hp as [-> _].
      destruct (IH _ H) as [[-> ->]|(e & sh & line & rest & -> & -> & -> & Ho)].
      * left. split; [reflexivity|].
        cbn [printing flat_map]. fold (printing ls). now rewrite <- app_assoc.
      * right. exists e, (l :: sh), line, rest.
        cbn [printing flat_map]. fold (printing sh).
        rewrite <- !app_assoc in *. cbn [app] in *. auto.
Qed.

Lemma print_all_ok E lines t :
  stdout_accepts E ->
  print_all E lines t = (inr tt, t ++ printing lines).
Proof.
  intros Hok. destruct (print_all E lines t) as [r t'] eqn:H.
  destruct (print_all_cases _ _ _ _ _ H)
    as [[-> ->]|(e & sh & line & rest & _ & _ & _ & Ho)]; [reflexivity|].
  rewrite Hok in Ho. discriminate.
Qed.

(** What [print_all] adds to the history, whatever its outcome. *)
Lemma print_all_delta E lines t r t' :
  print_all E lines t = (r, t') ->
  exists dt shown rest,
    t' = t ++ dt /\ lines = shown ++ rest /\
    printed dt = shown /\ written dt = [] /\ renders dt = [] /\
    (r = inr tt -> rest = []).
Proof.
  intros H. destruct (print_all_cases _ _ _ _ _ H)
    as [[-> ->]|(e & sh & line & rest & -> & -> & -> & Ho)].
  - destruct (printing_silent lines) as (Hp & Hw & Hr).
    exists (printing lines), lines, []. rewrite app_nil_r. auto 10.
  - destruct (printing_silent sh) as (Hp & Hw & Hr).
    exists (printing sh ++ [CallPrint line]), sh, (line :: rest).
    rewrite printed_app, written_app, renders_app, Hp, Hw, Hr. cbn.
    rewrite app_nil_r. repeat split; auto. discriminate.
Qed.

(** How far printing a list of lines gets: all of them, or up to the
    first [print] that raises. *)
Lemma print_all_shape E lines t :
  exists shown rest dh,
    lines = shown ++ rest /\
    snd (print_all E lines t) = t ++ dh /\
    renders dh = [] /\ written dh = [] /\ printed dh = shown /\
    match rest with
    | [] => print_all E lines t = (inr tt, t ++ printing lines)
    | line :: _ =>
        exists e,
          print_all E lines t
          = (inl e, t ++ printing shown ++ [CallPrint line]) /\
          print_outcome E (t ++ printing shown ++ [CallPrint line]) = Some e
    end /\
    (stdout_accepts E -> rest = []).
Proof.
  destruct (print_all E lines t) as [r t'] eqn:H.
  destruct (print_all_cases _ _ _ _ _ H)
    as [[-> ->]|(e & sh & line & rest & -> & -> & -> & Ho)].
  - destruct (printing_silent lines) as (Hp & Hw & Hr).
    exists lines, [], (printing lines). rewrite app_nil_r.
    cbn [snd]. auto 10.
  - destruct (printing_silent sh) as (Hp & Hw & Hr).
    exists sh, (line :: rest), (printing sh ++ [CallPrint line]).
    rewrite renders_app, written_app, printed_app, Hp, Hw, Hr.
    cbn [snd renders written printed app]. rewrite app_nil_r.
    repeat split; eauto.
    intros Hok. rewrite Hok in Ho. discriminate.
Qed.

Lemma try_body_eq E t :
  try_body E t
  = (import_PIL E ;;; run_icons E icons ;;; print_all E success_banner) t.
Proof.
  unfold try_body, icons. cbn [run_icons]. unfold bind.
  destruct (import_PIL E t) as [[e|[]] t0]; [reflexivity|].
  destruct (create_icon E 16 _ t0) as [[e|[]] t1]; [reflexivity|].
  destruct (create_icon E 32 _ t1) as [[e|[]] t2]; [reflexivity|].
  destruct (create_icon E 48 _ t2) as [[e|[]] t3]; [reflexivity|].
  destruct (create_icon E 128 _ t3) as [[e|[]] t4]; reflexivity.
Qed.

Lemma run_icons_ok E l t t' :
  run_icons E l t = (inr tt, t') ->
  exists dt, t' = t ++ dt /\
    renders dt = batch_renders l /\
    map file_summary (written dt) = batch_files l /\
    printed dt = batch_lines l.
Proof.
  revert t. induction l as [|[s f] l IH]; intros t H; cbn [run_icons] in H.
  - injection H as <-. exists []. now rewrite app_nil_r.
  - apply bind_inr in H as ([] & t1 & H1 & H).
    apply create_icon_sound, icon_run_delta in H1
      as (d1 & -> & Hr & img & Hw & Hs & Hp).
    apply IH in H as (d2 & -> & Hr2 & Hw2 & Hp2).
    exists (d1 ++ d2). rewrite app_assoc. split; [reflexivity|].
    rewrite renders_app, written_app, printed_app, map_app, Hr, Hw, Hp,
      Hr2, Hw2, Hp2.
    cbn [map app]. rewrite Hs. auto.
Qed.

(** The batch stops at the first icon that raises. *)
Lemma run_icons_raises E l1 s f l2 t t2 e t3 :
  run_icons E l1 t = (inr tt, t2) ->
  create_icon E s f t2 = (inl e, t3) ->
  run_icons E (l1 ++ (s, f) :: l2) t = (inl e, t3).
Proof.
  revert t. induction l1 as [|[s1 f1] l1 IH]; intros t H1 H2; cbn [run_icons app] in *.
  - injection H1 as ->. now rewrite (bind_stop _ _ _ _ _ H2).
  - apply bind_inr in H1 as ([] & t1 & Ha & Hb).
    rewrite (bind_step _ _ _ _ _ Ha). now apply IH.
Qed.

(** What the batch has done when an icon raises: the icons before it are
    written and announced; the one that raised is written too when it
    was its announcement that raised, and is announced in no case. *)
Lemma run_icons_raises_delta E l1 s f t t2 e t3 :
  run_icons E l1 t = (inr tt, t2) ->
  create_icon E s f t2 = (inl e, t3) ->
  exists dt, t3 = t ++ dt /\
    renders dt = batch_renders (l1 ++ [(s, f)]) /\
    printed dt = batch_lines l1 /\
    map file_summary (written dt)
    = batch_files (l1 ++ if raised_by_print t3 then [(s, f)] else []) /\
    (raised_by_print t3 = true -> print_outcome E t3 = Some e).
Proof.
  intros H1 H2.
  apply run_icons_ok in H1 as (d1 & -> & Hr & Hw & Hp).
  apply create_icon_sound, icon_run_raised in H2
    as (d2 & -> & Hr2 & Hp2 & Hw2).
  exists (d1 ++ d2). rewrite app_assoc. split; [reflexivity|].
  rewrite renders_app, written_app, printed_app, map_app, Hr, Hw, Hp,
    Hr2, Hp2.
  unfold batch_renders, batch_files. rewrite !map_app, !app_nil_r.
  split; [reflexivity|]. split; [reflexivity|].
  destruct (raised_by_print ((t ++ d1) ++ d2)).
  - destruct Hw2 as (Ho & img & pre & Hw2 & Hs & _).
    rewrite Hw2. cbn [map fst snd]. rewrite Hs. auto.
  - rewrite Hw2. split; [reflexivity|discriminate].
Qed.

Lemma run_icons_cases E l t r t' :
  run_icons E l t = (r, t') ->
  r = inr tt \/
  exists before s f after t2 e,
    l = before ++ (s, f) :: after /\
    run_icons E before t = (inr tt, t2) /\
    create_icon E s f t2 = (inl e, t') /\
    r = inl e.
Proof.
  revert t. induction l as [|[s f] l IH]; intros t H; cbn [run_icons] in H.
  - injection H as <- _. now left.
  - destruct (create_icon E s f t) as [[e|[]] t1] eqn:Hc.
    + rewrite (bind_stop _ _ _ _ _ Hc) in H. injection H as <- <-.
      right. exists [], s, f, l, t, e. repeat split; auto.
    + rewrite (bind_step _ _ _ _ _ Hc) in H.
      destruct (IH _ H) as [->|(b & s' & f' & a & t2 & e & -> & Hb & Hf & ->)].
      * now left.
      * right. exists ((s, f) :: b), s', f', a, t2, e.
        repeat split; auto.
        cbn [run_icons]. now rewrite (bind_step _ _ _ _ _ Hc).
Qed.

(** ** The [try] statement of the script *)

Lemma script_returns E t t' :
  try_body E t = (inr tt, t') -> script E t = (inr tt, t').
Proof. unfold script, try_except. now intros ->. Qed.

(** An exception of the [try] body goes to the clause that takes it, and
    out of the script when none does. *)
Lemma script_handles E t e t' :
  try_body E t = (inl e, t') ->
  script E t
  = (if handled e then print_all E (handler_lines e) t' else (inl e, t')).
Proof.
  unfold script, try_except, handlers, handled, handler_lines. intros ->.
  cbn [dispatch].
  destruct (is_ImportError e); [reflexivity|].
  destruct (is_Exception e); reflexivity.
Qed.

(** After the raise the script only prints: lines of the clause that took
    the exception, in order, as far as [print] lets it. *)
Lemma script_after_raise E t e tb r t' :
  try_body E t = (inl e, tb) ->
  script E t = (r, t') ->
  exists dt shown rest,
    t' = tb ++ dt /\ handler_lines e = shown ++ rest /\
    printed dt = shown /\ written dt = [] /\ renders dt = [] /\
    (r = inr tt -> rest = [] /\ handled e = true).
Proof.
  intros Hb Hs. rewrite (script_handles _ _ _ _ Hb) in Hs.
  destruct (handled e) eqn:Hh.
  - apply print_all_delta in Hs
      as (dt & shown & rest & -> & Hl & Hp & Hw & Hr & Hok).
    exists dt, shown, rest. repeat split; auto.
  - injection Hs as <- <-. exists [], [], (handler_lines e).
    rewrite app_nil_r. repeat split; discriminate.
Qed.

(** An icon that raises takes the whole [try] body with it. *)
Lemma try_body_raises E l1 s f l2 t t2 e t3 :
  icons = l1 ++ (s, f) :: l2 ->
  import_outcome E (t ++ [ImportPIL]) = None ->
  run_icons E l1 (t ++ [ImportPIL]) = (inr tt, t2) ->
  create_icon E s f t2 = (inl e, t3) ->
  try_body E t = (inl e, t3).
Proof.
  intros Hl Hi H1 H2. rewrite try_body_eq.
  rewrite (bind_step _ _ _ tt (t ++ [ImportPIL]))
    by (now apply call_ok).
  rewrite Hl. now rewrite (bind_stop _ _ _ _ _ (run_icons_raises _ _ _ _ l2 _ _ _ _ H1 H2)).
Qed.

(** The [try] body returns after all four icons and the banner, or the
    import raises, or one icon raises after those before it returned, or
    a [print] of the banner raises after all four icons. *)
Lemma try_body_cases E t :
  (exists t1,
      import_outcome E (t ++ [ImportPIL]) = None /\
      run_icons E icons (t ++ [ImportPIL]) = (inr tt, t1) /\
      try_body E t = (inr tt, t1 ++ printing success_banner)) \/
  (exists e,
      import_outcome E (t ++ [ImportPIL]) = Some e /\
      try_body E t = (inl e, t ++ [ImportPIL])) \/
  (exists before s f after t2 e t3,
      icons = before ++ (s, f) :: after /\
      import_outcome E (t ++ [ImportPIL]) = None /\
      run_icons E before (t ++ [ImportPIL]) = (inr tt, t2) /\
      create_icon E s f t2 = (inl e, t3) /\
      try_body E t = (inl e, t3)) \/
  (exists t1 e tb,
      import_outcome E (t ++ [ImportPIL]) = None /\
      run_icons E icons (t ++ [ImportPIL]) = (inr tt, t1) /\
      print_all E success_banner t1 = (inl e, tb) /\
      try_body E t = (inl e, tb)).
Proof.
  destruct (import_outcome E (t ++ [ImportPIL])) as [e|] eqn:Hi.
  - right. left. exists e. split; [reflexivity|].
    unfold try_body. apply bind_stop. now apply call_raises.
  - destruct (run_icons E icons (t ++ [ImportPIL])) as [r t1] eqn:Hr.
    destruct (run_icons_cases _ _ _ _ _ Hr)
      as [->|(b & s & f & a & t2 & e & Hl & Hb & Hf & ->)].
    + destruct (print_all E success_banner t1) as [rp tb] eqn:Hp.
      assert (Hbody : try_body E t = (rp, tb)).
      { rewrite try_body_eq.
        rewrite (bind_step _ _ _ tt (t ++ [ImportPIL])) by (now apply call_ok).
        now rewrite (bind_step _ _ _ _ _ Hr). }
      destruct (print_all_cases _ _ _ _ _ Hp)
        as [[-> ->]|(e & sh & line & rest & -> & _)].
      * left. exists t1. auto.
      * right. right. right. exists t1, e, tb. auto.
    + right. right. left. exists b, s, f, a, t2, e, t1. repeat split; auto.
      eapply try_body_raises; eassumption.
Qed.

(** ** Announcements come after the file *)

Lemma saved_before_announced_app l1 l2 d1 d2 :
  saved_before_announced l1 d1 -> saved_before_announced l2 d2 ->
  saved_before_announced (l1 ++ l2) (d1 ++ d2).
Proof.
  intros H1 H2 pre line post Hsplit Hann.
  apply split_app in Hsplit as [(p & Hd & _)|(p & -> & Hd)].
  - destruct (H1 _ _ _ Hd Hann) as (s & f & img & Hin & Hl & Hw & Hs).
    exists s, f, img. rewrite in_app_iff. auto.
  - destruct (H2 _ _ _ Hd Hann) as (s & f & img & Hin & Hl & Hw & Hs).
    exists s, f, img. rewrite !in_app_iff. auto.
Qed.

Lemma saved_before_announced_silent l dt :
  printed dt = [] -> saved_before_announced l dt.
Proof.
  intros Hp pre line post Hsplit _. exfalso.
  eapply no_print_split; eassumption.
Qed.

(** A history whose printed lines are an initial part of lines that
    announce nothing. *)
Lemma saved_before_announced_lines l lines shown rest dt :
  forallb (fun line => negb (announces line)) lines = true ->
  lines = shown ++ rest -> printed dt = shown ->
  saved_before_announced l dt.
Proof.
  intros Hall Hl Hp pre line post Hsplit Hann. exfalso.
  assert (Hin : In line lines).
  { rewrite Hl, in_app_iff. left. rewrite <- Hp, Hsplit.
    apply printed_In, in_elt. }
  rewrite forallb_forall in Hall. apply Hall in Hin.
  now rewrite Hann in Hin.
Qed.

Lemma icon_run_announces E size fn t r t' :
  icon_run E size fn t r t' ->
  exists dt, t' = t ++ dt /\ saved_before_announced [(size, fn)] dt.
Proof.
  intros H. destruct r as [e|[]].
  - apply icon_run_delta in H as (dt & -> & _ & Hp & _).
    exists dt. split; [reflexivity|]. now apply saved_before_announced_silent.
  - apply icon_run_created_shape in H as (b & img & -> & Hp & Hin & Hs).
    eexists. split; [reflexivity|].
    intros pre line post Hsplit Hann.
    apply last_print_split in Hsplit as (-> & -> & ->); [|exact Hp].
    exists size, fn, img. repeat split; auto. now left.
Qed.

Lemma run_icons_announces E l t r t' :
  run_icons E l t = (r, t') ->
  exists dt, t' = t ++ dt /\ saved_before_announced l dt.
Proof.
  revert t. induction l as [|[s f] l IH]; intros t H; cbn [run_icons] in H.
  - injection H as <- <-. exists []. rewrite app_nil_r. split; [reflexivity|].
    now apply saved_before_announced_silent.
  - unfold bind in H. destruct (create_icon E s f t) as [[e|[]] t1] eqn:H1;
      apply create_icon_sound, icon_run_announces in H1 as (d1 & -> & P1).
    + injection H as <- <-. exists d1. split; [reflexivity|].
      rewrite <- (app_nil_r d1).
      change ((s, f) :: l) with ([(s, f)] ++ l).
      apply saved_before_announced_app; [assumption|].
      now apply saved_before_announced_silent.
    + apply IH in H as (d2 & -> & P2). exists (d1 ++ d2).
      rewrite app_assoc. split; [reflexivity|].
      change ((s, f) :: l) with ([(s, f)] ++ l).
      now apply saved_before_announced_app.
Qed.

Lemma banner_not_announcing :
  forallb (fun line => negb (announces line)) success_banner = true.
Proof. reflexivity. Qed.

Lemma handler_not_announcing e :
  forallb (fun line => negb (announces line)) (handler_lines e) = true.
Proof.
  unfold handler_lines.
  destruct (is_ImportError e); [reflexivity|].
  destruct (is_Exception e); reflexivity.
Qed.

(** After an exception of the [try] body, what the script adds announces
    nothing. *)
Lemma handlers_announce_nothing E t e tb r t' l :
  try_body E t = (inl e, tb) ->
  script E t = (r, t') ->
  exists dh, t' = tb ++ dh /\ saved_before_announced l dh.
Proof.
  intros Hb Hs.
  destruct (script_after_raise _ _ _ _ _ _ Hb Hs)
    as (dh & shown & rest & -> & Hl & Hp & _).
  exists dh. split; [reflexivity|].
  eapply saved_before_announced_lines;
    [apply (handler_not_announcing e) | exact Hl | exact Hp].
Qed.

Lemma script_announces E t r t' :
  script E t = (r, t') ->
  exists dt, t' = t ++ dt /\ saved_before_announced icons dt.
Proof.
  intros H.
  assert (Hstart : saved_before_announced [] [ImportPIL])
    by (now apply saved_before_announced_silent).
  destruct (try_body_cases E t)
    as [(t1 & Hi & Hr & Hb)
       |[(e & Hi & Hb)
        |[(b & s & f & a & t2 & e & t3 & Hl & Hi & Hr & Hf & Hb)
         |(t1 & e & tb & Hi & Hr & Hp & Hb)]]].
  - rewrite (script_returns _ _ _ Hb) in H. injection H as <- <-.
    apply run_icons_announces in Hr as (d & -> & P).
    exists ([ImportPIL] ++ d ++ printing success_banner).
    split; [now rewrite <- !app_assoc|].
    change icons with ([] ++ icons ++ []).
    apply saved_before_announced_app; [assumption|].
    apply saved_before_announced_app; [assumption|].
    eapply (saved_before_announced_lines _ success_banner success_banner []);
      [apply banner_not_announcing | now rewrite app_nil_r
      | apply printing_silent].
  - destruct (handlers_announce_nothing _ _ _ _ _ _ icons Hb H)
      as (dh & -> & Ph).
    exists ([ImportPIL] ++ dh). split; [now rewrite <- !app_assoc|].
    change icons with ([] ++ icons).
    now apply saved_before_announced_app.
  - destruct (handlers_announce_nothing _ _ _ _ _ _ [] Hb H)
      as (dh & -> & Ph).
    pose proof (run_icons_raises _ _ _ _ a _ _ _ _ Hr Hf) as Hall.
    rewrite <- Hl in Hall.
    apply run_icons_announces in Hall as (d & -> & P).
    exists ([ImportPIL] ++ d ++ dh). split; [now rewrite <- !app_assoc|].
    change icons with ([] ++ icons ++ []).
    apply saved_before_announced_app; [assumption|].
    now apply saved_before_announced_app.
  - destruct (handlers_announce_nothing _ _ _ _ _ _ [] Hb H)
      as (dh & -> & Ph).
    apply run_icons_announces in Hr as (d & -> & P).
    apply print_all_delta in Hp
      as (db & shown & rest & -> & Hlb & Hpb & _).
    exists ([ImportPIL] ++ (d ++ db) ++ dh).
    split; [now rewrite <- !app_assoc|].
    change icons with ([] ++ (icons ++ []) ++ []).
    apply saved_before_announced_app; [assumption|].
    apply saved_before_announced_app; [|assumption].
    apply saved_before_announced_app; [assumption|].
    eapply saved_before_announced_lines;
      [apply banner_not_announcing | exact Hlb | exact Hpb].
Qed.

(** ** binary64: what [int(size * 0.6)] computes *)

Lemma digits2_pos_log2 p : Zpos (digits2_pos p) = Z.log2 (Zpos p) + 1.
Proof.
  induction p as [p IH|p IH|]; cbn [digits2_pos]; try reflexivity;
    rewrite Pos2Z.inj_succ, IH.
  - rewrite (Pos2Z.inj_xI p), Z.log2_succ_double by lia. lia.
  - rewrite (Pos2Z.inj_xO p), Z.log2_double by lia. lia.
Qed.

Lemma digits2_pos_bounds p :
  2 ^ (Zpos (digits2_pos p) - 1) <= Zpos p < 2 ^ Zpos (digits2_pos p).
Proof.
  rewrite digits2_pos_log2.
  replace (Z.log2 (Zpos p) + 1 - 1) with (Z.log2 (Zpos p)) by lia.
  apply (Z.log2_spec (Zpos p)). lia.
Qed.

Lemma digits2_pos_unique p d :
  2 ^ (d - 1) <= Zpos p < 2 ^ d -> Zpos (digits2_pos p) = d.
Proof.
  intros H. rewrite digits2_pos_log2.
  assert (0 <= d - 1).
  { destruct (Z.le_gt_cases 0 (d - 1)); [assumption|].
    assert (2 ^ d <= 1).
    { destruct (Z.eq_dec d 0) as [->|]; [cbn; lia|].
      rewrite Z.pow_neg_r by lia. lia. }
    lia. }
  rewrite (Z.log2_unique (Zpos p) (d - 1)); [lia|assumption|].
  now replace (Z.succ (d - 1)) with d by lia.
Qed.

Lemma iter_pos_invariant {A} (f : A -> A) (P : Z -> A -> Prop) :
  (forall k x, 0 <= k -> P k x -> P (k + 1) (f x)) ->
  forall p k x, 0 <= k -> P k x -> P (k + Zpos p) (iter_pos f p x).
Proof.
  intros Hstep. induction p as [p IH|p IH|]; intros k x Hk Hx; cbn [iter_pos].
  - replace (k + Zpos p~1) with (k + 1 + Zpos p + Zpos p) by lia.
    apply IH; [lia|]. apply IH; [lia|]. now apply Hstep.
  - replace (k + Zpos p~0) with (k + Zpos p + Zpos p) by lia.
    apply IH; [lia|]. now apply IH.
  - now apply Hstep.
Qed.

Lemma shr_1_nonneg m r s :
  0 <= m ->
  shr_1 {| shr_m := m; shr_r := r; shr_s := s |}
  = {| shr_m := m / 2; shr_r := Z.odd m; shr_s := r || s |}.
Proof.
  intros Hm. rewrite <- Z.div2_div.
  destruct m as [|[p|p|]|p]; try lia; reflexivity.
Qed.

Lemma shifted_step M k mrs :
  0 <= k -> shifted M k mrs -> shifted M (k + 1) (shr_1 mrs).
Proof.
  intros Hk (Hm & rem & HM & Hrem & Hr & Hs).
  destruct mrs as [m r s]. cbn [shr_m shr_r shr_s] in *.
  rewrite shr_1_nonneg by assumption.
  assert (Hpow : 2 ^ (k + 1) = 2 * 2 ^ k) by (rewrite Z.pow_add_r; lia).
  assert (Hk0 : 0 < 2 ^ k) by (apply Z.pow_pos_nonneg; lia).
  pose proof (Z.div_mod m 2 ltac:(lia)) as Hdm.
  pose proof (Z.mod_pos_bound m 2 ltac:(lia)) as Hb.
  assert (Hodd : Z.odd m = true <-> m mod 2 = 1).
  { rewrite Zmod_odd. destruct (Z.odd m); split; (lia || easy). }
  split; cbn [shr_m shr_r shr_s].
  - apply Z.div_pos; lia.
  - exists ((m mod 2) * 2 ^ k + rem). rewrite Hpow.
    assert (Hm2 : m = 2 * (m / 2) + m mod 2) by lia.
    assert (Hbit : m mod 2 = 0 \/ m mod 2 = 1) by lia.
    split; [rewrite Hm2 in HM at 1; lia|].
    split; [destruct Hbit as [-> | ->]; lia|].
    split; split.
    + intros Ho. apply Hodd in Ho. rewrite Ho. lia.
    + intros Hle. apply Hodd. destruct Hbit as [Hb0|Hb1]; [|assumption].
      rewrite Hb0 in Hle. lia.
    + intros H. apply orb_true_iff in H.
      assert (rem <> 0).
      { destruct H as [H|H]; [apply Hr in H; lia | now apply Hs in H]. }
      destruct Hbit as [-> | ->]; lia.
    + intros [Hn0 Hn1]. apply orb_true_iff.
      destruct (Z.eq_dec rem 0) as [->|Hne].
      * exfalso. destruct Hbit as [Hb0|Hb1]; [rewrite Hb0 in Hn0 | rewrite Hb1 in Hn1]; lia.
      * destruct (Z.le_gt_cases (2 ^ k) (2 * rem)).
        -- left. now apply Hr.
        -- right. apply Hs. lia.
Qed.

Lemma shifted_start M : 0 <= M -> shifted M 0 (shr_record_of_loc M loc_Exact).
Proof.
  intros HM. split; [exact HM|]. exists 0. cbn [shr_record_of_loc shr_m shr_r shr_s].
  rewrite Z.pow_0_r. repeat split; try lia; try discriminate.
Qed.

Lemma shr_shifted M e p :
  0 <= M ->
  exists mrs,
    shr (shr_record_of_loc M loc_Exact) e (Zpos p) = (mrs, e + Zpos p) /\
    shifted M (Zpos p) mrs.
Proof.
  intros HM. eexists. split; [reflexivity|].
  change (Zpos p) with (0 + Zpos p) at 1.
  apply (iter_pos_invariant shr_1 (shifted M)); [|lia|now apply shifted_start].
  intros k x Hk. now apply shifted_step.
Qed.

Lemma shifted_quotient M k mrs :
  0 <= k -> shifted M k mrs ->
  shr_m mrs = M / 2 ^ k /\
  (shr_r mrs = true <-> 2 ^ k <= 2 * (M mod 2 ^ k)) /\
  (shr_s mrs = true <-> M mod 2 ^ k <> 0 /\ 2 * (M mod 2 ^ k) <> 2 ^ k).
Proof.
  intros Hk (Hm & rem & HM & Hrem & Hr & Hs).
  assert (Hk0 : 0 < 2 ^ k) by (apply Z.pow_pos_nonneg; lia).
  assert (Hq : M / 2 ^ k = shr_m mrs).
  { symmetry. apply (Z.div_unique_pos M (2 ^ k) (shr_m mrs) rem); lia. }
  assert (Hrm : M mod 2 ^ k = rem).
  { symmetry. apply (Z.mod_unique_pos M (2 ^ k) (shr_m mrs) rem); lia. }
  rewrite Hrm. auto.
Qed.

(** Rounding to nearest even after [k] shifts: the quotient or the next
    integer, and the next integer when more than half a unit was cut. *)
Lemma round_nearest_even_shifted M k mrs :
  0 <= k -> shifted M k mrs ->
  let q := round_nearest_even (shr_m mrs) (loc_of_shr_record mrs) in
  M / 2 ^ k <= q <= M / 2 ^ k + 1 /\
  (2 ^ k < 2 * (M mod 2 ^ k) -> q = M / 2 ^ k + 1).
Proof.
  intros Hk H. apply shifted_quotient in H as (Hq & Hr & Hs); [|assumption].
  destruct mrs as [m [|] [|]]; cbn [shr_m shr_r shr_s] in *;
    cbn [loc_of_shr_record round_nearest_even]; subst m.
  - split; [lia|reflexivity].
  - split; [destruct (Z.even _); lia|].
    intros Hgt. exfalso.
    assert (Hs' : false = true) by (apply Hs; lia). discriminate.
  - split; [lia|]. intros Hgt. exfalso.
    assert (Hr' : false = true) by (apply Hr; lia). discriminate.
  - split; [lia|]. intros Hgt. exfalso.
    assert (Hr' : false = true) by (apply Hr; lia). discriminate.
Qed.

(** Rounding a positive integer mantissa of [53 + s] bits to binary64,
    away from the subnormal and overflow ranges. *)
Lemma binary_round_aux_normal (M : positive) (ex s : Z) :
  0 < s ->
  Zpos (digits2_pos M) = 53 + s ->
  -1074 <= ex + s ->
  ex + s + 1 <= 971 ->
  exists m3 e3 q,
    binary_round_aux prec emax false (Zpos M) ex loc_Exact
    = S754_finite false m3 e3 /\
    Zpos M / 2 ^ s <= q <= Zpos M / 2 ^ s + 1 /\
    (2 ^ s < 2 * (Zpos M mod 2 ^ s) -> q = Zpos M / 2 ^ s + 1) /\
    ((e3 = ex + s /\ Zpos m3 = q) \/ (e3 = ex + s + 1 /\ 2 * Zpos m3 = q)).
Proof.
  intros Hs Hd Hlo Hhi.
  unfold binary_round_aux, shr_fexp.
  cbn [Zdigits2]. rewrite Hd.
  assert (Hf : fexp prec emax (53 + s + ex) - ex = s).
  { unfold fexp, emin, prec, emax. lia. }
  rewrite Hf.
  destruct s as [|p|p]; try lia.
  destruct (shr_shifted (Zpos M) ex p (Pos2Z.is_nonneg M)) as (mrs & -> & Hsh).
  pose proof (round_nearest_even_shifted _ _ _ (Pos2Z.is_nonneg p) Hsh) as [Hq Hup].
  cbv zeta in Hq, Hup.
  set (q := round_nearest_even (shr_m mrs) (loc_of_shr_record mrs)) in *.
  pose proof (digits2_pos_bounds M) as HM. rewrite Hd in HM.
  replace (53 + Zpos p - 1) with (52 + Zpos p) in HM by lia.
  rewrite !Z.pow_add_r in HM by lia.
  assert (Hp0 : 0 < 2 ^ Zpos p) by (apply Z.pow_pos_nonneg; lia).
  assert (Hquo : 2 ^ 52 <= Zpos M / 2 ^ Zpos p < 2 ^ 53).
  { split.
    - apply Z.div_le_lower_bound; lia.
    - apply Z.div_lt_upper_bound; lia. }
  clearbody q. clear Hsh mrs Hf.
  destruct q as [|qp|qp]; try lia.
  cbn [Zdigits2].
  destruct (Z.eq_dec (Zpos qp) (2 ^ 53)) as [Hmax|Hmax].
  - assert (Hdq : Zpos (digits2_pos qp) = 54)
      by (apply digits2_pos_unique; rewrite Hmax; cbn; lia).
    rewrite Hdq.
    replace (fexp prec emax (54 + (ex + Zpos p)) - (ex + Zpos p)) with 1
      by (unfold fexp, emin, prec, emax; lia).
    injection Hmax as ->.
    cbn [shr shr_record_of_loc iter_pos shr_1 shr_m].
    replace (ex + Zpos p + 1 <=? emax - prec) with true
      by (symmetry; apply Z.leb_le; unfold emax, prec; lia).
    eexists _, _, (2 ^ 53). split; [reflexivity|].
    split; [assumption|]. split; [exact Hup|].
    right. split; reflexivity.
  - assert (Hdq : Zpos (digits2_pos qp) = 53)
      by (apply digits2_pos_unique; change (53 - 1) with 52; lia).
    rewrite Hdq.
    replace (fexp prec emax (53 + (ex + Zpos p)) - (ex + Zpos p)) with 0
      by (unfold fexp, emin, prec, emax; lia).
    cbn [shr shr_record_of_loc shr_m].
    replace (ex + Zpos p <=? emax - prec) with true
      by (symmetry; apply Z.leb_le; unfold emax, prec; lia).
    exists qp, (ex + Zpos p), (Zpos qp). split; [reflexivity|].
    split; [assumption|]. split; [exact Hup|].
    left. split; reflexivity.
Qed.

Lemma pos_iter_xO p k : Zpos (Pos.iter xO p k) = Zpos p * 2 ^ Zpos k.
Proof.
  induction k as [|k IH] using Pos.peano_ind.
  - cbn [Pos.iter]. lia.
  - rewrite Pos.iter_succ, Pos2Z.inj_xO, IH, Pos2Z.inj_succ, Z.pow_succ_r by lia.
    lia.
Qed.

(** A mantissa of exactly 53 bits is kept as it is. *)
Lemma binary_round_aux_exact (m : positive) (e : Z) :
  Zpos (digits2_pos m) = 53 -> -1074 <= e <= 971 ->
  binary_round_aux prec emax false (Zpos m) e loc_Exact = S754_finite false m e.
Proof.
  intros Hd He. unfold binary_round_aux, shr_fexp.
  cbn [Zdigits2 shr_record_of_loc]. rewrite Hd.
  replace (fexp prec emax (53 + e) - e) with 0
    by (unfold fexp, emin, prec, emax; lia).
  cbn [shr shr_m loc_of_shr_record round_nearest_even Zdigits2].
  rewrite Hd.
  replace (fexp prec emax (53 + e) - e) with 0
    by (unfold fexp, emin, prec, emax; lia).
  cbn [shr shr_m].
  replace (e <=? emax - prec) with true
    by (symmetry; apply Z.leb_le; unfold emax, prec; lia).
  reflexivity.
Qed.

(** [float(n)] is exact below 2^53: the mantissa is [n] shifted left to
    53 bits. *)
Lemma float_of_int_exact n :
  0 < n < 2 ^ 53 ->
  exists mn a,
    float_of_int n = inr (S754_finite false mn (- a)) /\
    0 <= a /\ Zpos mn = n * 2 ^ a /\ Zpos (digits2_pos mn) = 53 /\
    a = 53 - (Z.log2 n + 1).
Proof.
  intros Hn. destruct n as [|p|p]; try lia.
  unfold float_of_int, binary_normalize, binary_round, shl_align.
  pose proof (digits2_pos_bounds p) as Hb.
  pose proof (digits2_pos_log2 p) as Hl.
  set (d := Zpos (digits2_pos p)) in *.
  assert (Hd : 1 <= d <= 53).
  { split; [subst d; lia|].
    destruct (Z.le_gt_cases d 53) as [|Hgt]; [assumption|].
    assert (2 ^ 53 <= 2 ^ (d - 1)) by (apply Z.pow_le_mono_r; lia). lia. }
  replace (fexp prec emax (d + 0)) with (d - 53)
    by (unfold fexp, emin, prec, emax; lia).
  destruct (d - 53 - 0) as [|k|k] eqn:Hk; try lia.
  - rewrite binary_round_aux_exact by (subst d; lia).
    exists p, 0. repeat split; subst d; lia.
  - assert (Hm : Zpos (digits2_pos (Pos.iter xO p k)) = 53).
    { apply digits2_pos_unique. rewrite pos_iter_xO.
      assert (H52 : 53 - 1 = d - 1 + Zpos k) by lia.
      assert (H53 : 53 = d + Zpos k) by lia.
      rewrite H52, H53.
      rewrite !Z.pow_add_r by lia.
      assert (0 < 2 ^ Zpos k) by (apply Z.pow_pos_nonneg; lia).
      split.
      - apply Z.mul_le_mono_nonneg_r; lia.
      - apply Z.mul_lt_mono_pos_r; lia. }
    rewrite binary_round_aux_exact by (assumption || lia).
    exists (Pos.iter xO p k), (Zpos k).
    replace (d - 53) with (- Zpos k) by lia.
    repeat split; try (subst d; lia). apply pos_iter_xO.
Qed.

(** The arithmetic behind [int(n * 0.6) = floor(6n / 10)].  With
    [x = n * 2^a] the 53-bit mantissa of [n] and [c] the mantissa of the
    double 0.6, [10 * c = 6 * 2^53 - 2]: the product falls short of
    [6/10 * x * 2^53] by [x / 5], which rounding to nearest undoes when
    [6n / 10] is a whole number and which never reaches the next whole
    number otherwise. *)
Lemma scaled_floor (n A s T q : Z) :
  0 < n -> 8 <= A -> n * A < 2 ^ 53 ->
  (s = 52 /\ T = 2 * A \/ s = 53 /\ T = A) ->
  let M := n * A * 5404319552844595 in
  M / 2 ^ s <= q <= M / 2 ^ s + 1 ->
  (2 ^ s < 2 * (M mod 2 ^ s) -> q = M / 2 ^ s + 1) ->
  q / T = 6 * n / 10.
Proof.
  intros Hn HA Hx Hs M Hq Hup.
  pose proof (Z.div_mod (6 * n) 10 ltac:(lia)) as Hdiv.
  pose proof (Z.mod_pos_bound (6 * n) 10 ltac:(lia)) as Hrho.
  set (Q := 6 * n / 10) in *. set (rho := (6 * n) mod 10) in *.
  assert (Hy : 6 * (n * A) = 10 * (A * Q) + rho * A) by nia.
  assert (HM : 10 * M = 2 ^ 53 * (6 * (n * A)) - 2 * (n * A))
    by (subst M; change (2 ^ 53) with 9007199254740992; lia).
  assert (Hpos : 0 <= A * Q) by (apply Z.mul_nonneg_nonneg; subst Q; [lia|apply Z.div_pos; lia]).
  clearbody M. set (x := n * A) in *. set (y := A * Q) in *.
  assert (Hx0 : 0 < x) by (subst x; nia).
  symmetry. apply (Z.div_unique_pos q T Q (q - T * Q)); [|lia].
  change (2 ^ 53) with 9007199254740992 in *.
  assert (Hcases : rho = 0 \/ rho = 2 \/ rho = 4 \/ rho = 6 \/ rho = 8) by lia.
  destruct Hs as [[-> ->]|[-> ->]].
  - change (2 ^ 52) with 4503599627370496 in *.
    pose proof (Z.div_mod M 4503599627370496 ltac:(lia)) as HdM.
    pose proof (Z.mod_pos_bound M 4503599627370496 ltac:(lia)) as HrM.
    replace (2 * A * Q) with (2 * y) by (subst y; lia).
    destruct Hcases as [H0|[H0|[H0|[H0|H0]]]]; rewrite H0 in *; lia.
  - change (2 ^ 53) with 9007199254740992 in *.
    pose proof (Z.div_mod M 9007199254740992 ltac:(lia)) as HdM.
    pose proof (Z.mod_pos_bound M 9007199254740992 ltac:(lia)) as HrM.
    fold y.
    destruct Hcases as [H0|[H0|[H0|[H0|H0]]]]; rewrite H0 in *; lia.
Qed.

(** [int(size * 0.6)] is the floor of six tenths of [size] for every size
    from 0 to 2^50: nothing is lost to binary64. *)
Lemma font_size_of_floor size :
  0 <= size < 2 ^ 50 -> font_size_of size = inr (6 * size / 10).
Proof.
  intros [H0 Hlt].
  destruct (Z.eq_dec size 0) as [->|Hne]; [reflexivity|].
  assert (Hn : 0 < size < 2 ^ 53)
    by (split; [lia|]; eapply Z.lt_trans; [exact Hlt|reflexivity]).
  destruct (float_of_int_exact size Hn) as (mn & a & Hfl & Ha0 & Hmn & Hdn & Ha).
  unfold font_size_of, int_mul_float. rewrite Hfl.
  unfold float_0_6. cbn [SFmul xorb].
  (* the mantissa of size has 53 bits, and at least three trailing zeros *)
  assert (Ha3 : 3 <= a).
  { assert (Z.log2 size < 50) by (apply Z.log2_lt_pow2; lia). lia. }
  pose proof (digits2_pos_bounds mn) as Hbn. rewrite Hdn in Hbn.
  change (53 - 1) with 52 in Hbn.
  (* the product has 105 or 106 bits *)
  set (M := (mn * 5404319552844595)%positive).
  assert (HM : Zpos M = size * 2 ^ a * 5404319552844595)
    by (subst M; rewrite Pos2Z.inj_mul, Hmn; reflexivity).
  pose proof (digits2_pos_bounds M) as HbM.
  set (d := Zpos (digits2_pos M)) in *.
  assert (Hd : d = 105 \/ d = 106).
  { assert (HMlo : 2 ^ 104 <= Zpos M).
    { subst M. rewrite Pos2Z.inj_mul.
      change (2 ^ 104) with (2 ^ 52 * 2 ^ 52).
      apply Z.mul_le_mono_nonneg; lia. }
    assert (HMhi : Zpos M < 2 ^ 106).
    { subst M. rewrite Pos2Z.inj_mul.
      change (2 ^ 106) with (2 ^ 53 * 2 ^ 53).
      apply Z.mul_lt_mono_nonneg; lia. }
    assert (104 < d).
    { apply (Z.pow_lt_mono_r_iff 2); [lia|subst d; lia|lia]. }
    assert (d - 1 < 106).
    { apply (Z.pow_lt_mono_r_iff 2); lia. }
    lia. }
  assert (Hd53 : Zpos (digits2_pos M) = 53 + (d - 53)) by (subst d; lia).
  pose proof (Z.log2_nonneg size) as Hlog.
  destruct (binary_round_aux_normal M (- a + -53) (d - 53)
              ltac:(lia) Hd53 ltac:(lia) ltac:(lia))
    as (m3 & e3 & q & -> & Hq & Hup & He).
  cbn [int_of_float]. f_equal.
  assert (H2a : 8 <= 2 ^ a).
  { change 8 with (2 ^ 3). apply Z.pow_le_mono_r; lia. }
  assert (Hcase : d - 53 = 52 /\ e3 + (a + 1) = 0 /\ Zpos m3 = q
               \/ d - 53 = 52 /\ e3 + a = 0 /\ 2 * Zpos m3 = q
               \/ d - 53 = 53 /\ e3 + a = 0 /\ Zpos m3 = q
               \/ d - 53 = 53 /\ e3 + (a - 1) = 0 /\ 2 * Zpos m3 = q)
    by (clear - Hd He; lia).
  rewrite HM in Hq, Hup.
  assert (Hfloor : forall T, (d - 53 = 52 /\ T = 2 * 2 ^ a \/ d - 53 = 53 /\ T = 2 ^ a) ->
                    q / T = 6 * size / 10).
  { intros T HT.
    apply (scaled_floor size (2 ^ a) (d - 53) T q); try assumption; lia. }
  assert (Hneg : (0 <=? e3) = false) by (apply Z.leb_gt; lia).
  rewrite Hneg.
  destruct Hcase as [(Hs & He3 & Hm)|[(Hs & He3 & Hm)|[(Hs & He3 & Hm)|(Hs & He3 & Hm)]]].
  - replace (- e3) with (a + 1) by lia. rewrite Hm, Z.pow_add_r by lia.
    rewrite <- (Hfloor (2 * 2 ^ a)) by auto. f_equal. lia.
  - replace (- e3) with a by lia.
    rewrite <- (Hfloor (2 * 2 ^ a)) by auto. rewrite <- Hm.
    now rewrite Z.div_mul_cancel_l by lia.
  - replace (- e3) with a by lia. rewrite Hm. apply Hfloor. auto.
  - replace (- e3) with (a - 1) by lia.
    rewrite <- (Hfloor (2 ^ a)) by auto. rewrite <- Hm.
    replace (2 ^ a) with (2 * 2 ^ (a - 1))
      by (rewrite <- Z.pow_succ_r by lia; f_equal; lia).
    now rewrite Z.div_mul_cancel_l by lia.
Qed.

(** ** Where the label is drawn *)

(** What each event of a run says about the run: every [draw.text] call
    is the call of line 39, made after lines 13-37 went through; the font
    is asked for without a size, after the font size was computed; a
    written file holds the image line 39 left behind. *)
Lemma icon_run_events E size fn t r t' :
  icon_run E size fn t r t' ->
  exists dt, t' = t ++ dt /\
    forall ev, In ev dt ->
      match ev with
      | DrawText _ _ _ _ _ =>
          exists fs wh, measured E size t fs wh /\
            ev = draw_call size
                   (font_at E (t ++ [ImageNew "RGB" size size "#4285f4"; DrawNew])) wh
      | LoadDefault requested =>
          requested = None /\ started E size t /\
          exists fs, font_size_of size = inr fs
      | Written path img =>
          path = icon_path fn /\
          exists fs wh g, measured E size t fs wh /\
            text_outcome E
              (t ++ icon_prefix size
                 ++ bbox_events
                      (font_at E (t ++ [ImageNew "RGB" size size "#4285f4"; DrawNew]))
                 ++ [draw_call size
                       (font_at E (t ++ [ImageNew "RGB" size size "#4285f4"; DrawNew]))
                       wh]) = inr g /\
            img = drawn size wh g
      | _ => True
      end.
Proof.
  intros H.
  destruct H; unfold icon_prefix, icon_suffix, icon_saved in *; norm_trace;
    eexists; (split; [reflexivity|]); intros ev Hin;
    cbn [In] in Hin; rewrite ?in_app_iff in Hin; cbn [In] in Hin;
    repeat match goal with
      | H : _ \/ _ |- _ => destruct H
      | H : False |- _ => destruct H
      | H : _ = ev |- _ => subst ev
      end;
    try exact I;
    try (match goal with
         | H : In ev (bbox_events ?f) |- _ =>
             destruct f; cbn [bbox_events In] in H;
             [destruct H as [<-|[]]; exact I | destruct H]
         end);
    unfold draw_call, measured in *; intuition eauto 10.
Qed.



(** A glyph wider and taller than the icon is drawn at negative offsets. *)
Example negative_offsets_drawn :
  In (DrawText (-1) (-4) "S" "white" (Some default_font))
     (snd (create_icon env_ok 4 "tiny.png" [])).
Proof. vm_compute. tauto. Qed.

(** ** The font request *)

Lemma INT_MAX_small : INT_MAX < 2 ^ 50.
Proof. reflexivity. Qed.

(** Every size [Image.new] accepts has its font size computed exactly. *)
Lemma started_font_size E size t :
  started E size t -> font_size_of size = inr (6 * size / 10).
Proof.
  intros ([Hlo Hhi] & _). apply font_size_of_floor.
  pose proof INT_MAX_small. lia.
Qed.

(** C2, as the code has it: [create_icon] computes the font size
    floor(0.6 * size) but asks no font for it.  Its only font request is
    [ImageFont.load_default()] without a size, whether or not a scalable
    font is there; the request never makes the run fail, since the font
    step yields a font or [None] whatever the loader does. *)
Theorem C2_default_font_only E size filename t r t' dt requested :
  create_icon E size filename t = (r, t') ->
  t' = t ++ dt ->
  In (LoadDefault requested) dt ->
  requested = None /\
  font_size_of size = inr (6 * size / 10) /\
  forall t0, exists font,
    resolve_font E t0 = (inr font, t0 ++ [LoadDefault None]).
Proof.
  intros Hrun -> Hin.
  apply create_icon_sound, icon_run_events in Hrun as (dt' & Heq & Hall).
  apply app_inv_head in Heq. subst dt'.
  destruct (Hall _ Hin) as (-> & Hst & _).
  split; [reflexivity|]. split; [now apply (started_font_size E size t)|].
  intros t0. exists (font_at E t0). apply resolve_font_eq.
Qed.

Lemma C2_default_font_only_witness :
  @None Z = None /\
  font_size_of 16 = inr (6 * 16 / 10) /\
  forall t0, exists font,
    resolve_font env_ok t0 = (inr font, t0 ++ [LoadDefault None]).
Proof.
  apply (C2_default_font_only env_ok 16 "icon16.png" [] (inr tt)
           (snd (create_icon env_ok 16 "icon16.png" []))
           (snd (create_icon env_ok 16 "icon16.png" []))
           None).
  - reflexivity.
  - reflexivity.
  - vm_compute. tauto.
Defined.

(** C2 as the specification words it fails: with the default font
    available, the run for size 16 makes one font request, and it carries
    no size, let alone floor(0.6 * 16) = 9. *)
Lemma C2_counterexample :
  font_at env_ok [ImageNew "RGB" 16 16 "#4285f4"; DrawNew] = Some default_font /\
  font_requests (snd (create_icon env_ok 16 "icon16.png" [])) = [None] /\
  ~ requests_font_size env_ok 16 "icon16.png" [].
Proof.
  split; [reflexivity|]. split; [reflexivity|].
  unfold requests_font_size. vm_compute.
  intuition discriminate.
Qed.

(** ** Reaching line 39 *)

(** Once lines 13-37 went through, line 39 is reached, and the run
    returns when the three calls after it do. *)
Lemma create_icon_reaches_draw E size fn t fs wh :
  measured E size t fs wh ->
  let font := font_at E (t ++ [ImageNew "RGB" size size "#4285f4"; DrawNew]) in
  let t5 := t ++ icon_prefix size ++ bbox_events font ++ [draw_call size font wh] in
  (exists r rest, create_icon E size fn t = (r, t5 ++ rest)) /\
  (forall g,
      text_outcome E t5 = inr g ->
      makedirs_outcome E (t5 ++ [MakeDirs "extension/icons" true]) = None ->
      save_outcome E (t5 ++ [MakeDirs "extension/icons" true; Save (icon_path fn)])
      = None ->
      (print_outcome E (t5 ++ icon_saved fn size (drawn size wh g)) = None ->
       create_icon E size fn t
       = (inr tt, t5 ++ icon_suffix fn size (drawn size wh g))) /\
      (forall e,
          print_outcome E (t5 ++ icon_saved fn size (drawn size wh g)) = Some e ->
          create_icon E size fn t
          = (inl e, t5 ++ icon_saved fn size (drawn size wh g)))).
Proof.
  intros Hm font t5.
  assert (Hdone : forall g,
      text_outcome E t5 = inr g ->
      makedirs_outcome E (t5 ++ [MakeDirs "extension/icons" true]) = None ->
      save_outcome E (t5 ++ [MakeDirs "extension/icons" true; Save (icon_path fn)])
      = None ->
      (print_outcome E (t5 ++ icon_saved fn size (drawn size wh g)) = None ->
       create_icon E size fn t
       = (inr tt, t5 ++ icon_suffix fn size (drawn size wh g))) /\
      (forall e,
          print_outcome E (t5 ++ icon_saved fn size (drawn size wh g)) = Some e ->
          create_icon E size fn t
          = (inl e, t5 ++ icon_saved fn size (drawn size wh g)))).
  { intros g Hg Hk Hv. split; [intros Hp|intros e Hp];
      apply create_icon_complete;
      subst t5 font; rewrite !app_assoc in *.
    - eapply run_created; try eassumption.
      all: now rewrite <- !app_assoc in *.
    - eapply run_print_raises; try eassumption.
      all: now rewrite <- !app_assoc in *. }
  split; [|exact Hdone].
  destruct (text_outcome E t5) as [e|g] eqn:Hg.
  { exists (inl e), []. rewrite app_nil_r. apply create_icon_complete.
    subst t5 font. rewrite !app_assoc in *.
    eapply run_text_raises; eassumption. }
  destruct (makedirs_outcome E (t5 ++ [MakeDirs "extension/icons" true]))
    as [e|] eqn:Hk.
  { exists (inl e), [MakeDirs "extension/icons" true].
    apply create_icon_complete.
    subst t5 font. rewrite !app_assoc in *.
    eapply run_makedirs_raises; eassumption. }
  destruct (save_outcome E
              (t5 ++ [MakeDirs "extension/icons" true; Save (icon_path fn)]))
    as [e|] eqn:Hv.
  { exists (inl e), [MakeDirs "extension/icons" true; Save (icon_path fn)].
    apply create_icon_complete.
    subst t5 font.
    change [MakeDirs "extension/icons" true; Save (icon_path fn)]
      with ([MakeDirs "extension/icons" true] ++ [Save (icon_path fn)]) in *.
    rewrite !app_assoc in *.
    eapply run_save_raises; eassumption. }
  destruct (Hdone g eq_refl eq_refl eq_refl) as [Hok Hraise].
  destruct (print_outcome E (t5 ++ icon_saved fn size (drawn size wh g)))
    as [e|] eqn:Hp.
  - exists (inl e), (icon_saved fn size (drawn size wh g)). now apply Hraise.
  - exists (inr tt), (icon_suffix fn size (drawn size wh g)). now apply Hok.
Qed.

(** Equal histories written with different bracketing. *)
Ltac same_trace :=
  unfold icon_prefix, icon_suffix, draw_call in *; norm_trace;
  first [reflexivity | assumption | congruence].

(** ** The fallback estimate *)

Lemma no_font_measured E size t e :
  started E size t ->
  load_default_outcome E (t ++ icon_prefix size) = inl e ->
  font_at E (t ++ [ImageNew "RGB" size size "#4285f4"; DrawNew]) = None /\
  measured E size t (6 * size / 10) (6 * size / 10 / 2, 6 * size / 10).
Proof.
  intros Hst Hload.
  assert (Hfont : font_at E (t ++ [ImageNew "RGB" size size "#4285f4"; DrawNew])
                  = None).
  { rewrite font_at_eq. unfold icon_prefix in Hload. norm_trace.
    now rewrite Hload. }
  split; [exact Hfont|].
  split; [exact Hst|]. split; [now apply (started_font_size E size t)|].
  now rewrite Hfont.
Qed.

(** C3: when no font object is obtained, the label is taken to be
    floor(floor(0.6 * size) / 2) wide and floor(0.6 * size) high, and
    these are the numbers line 39 places it with. *)
Theorem C3_fallback_estimate E size filename t e :
  started E size t ->
  load_default_outcome E (t ++ icon_prefix size) = inl e ->
  let font_size := 6 * size / 10 in
  font_size_of size = inr font_size /\
  font_at E (t ++ [ImageNew "RGB" size size "#4285f4"; DrawNew]) = None /\
  extent_at E None font_size (t ++ icon_prefix size)
  = inr (font_size / 2, font_size) /\
  exists r rest,
    create_icon E size filename t
    = (r, t ++ icon_prefix size
            ++ DrawText ((size - font_size / 2) / 2) ((size - font_size) / 2)
                        "S" "white" None
            :: rest).
Proof.
  intros Hst Hload fs.
  destruct (no_font_measured E size t e Hst Hload) as [Hfont Hm].
  split; [now apply (started_font_size E size t)|].
  split; [exact Hfont|]. split; [reflexivity|].
  destruct (create_icon_reaches_draw E size filename t _ _ Hm)
    as [(r & rest & Hrun) _].
  rewrite Hfont in Hrun. cbn [bbox_events app] in Hrun.
  unfold draw_call, placement in Hrun. cbn [fst snd] in Hrun.
  exists r, rest. rewrite Hrun. f_equal. now rewrite <- !app_assoc.
Qed.

Lemma C3_fallback_estimate_witness :
  font_size_of 16 = inr 9 /\
  font_at env_no_font ([] ++ [ImageNew "RGB" 16 16 "#4285f4"; DrawNew]) = None /\
  extent_at env_no_font None 9 ([] ++ icon_prefix 16) = inr (4, 9) /\
  exists r rest,
    create_icon env_no_font 16 "icon16.png" []
    = (r, [] ++ icon_prefix 16 ++ DrawText 6 3 "S" "white" None :: rest).
Proof.
  apply (C3_fallback_estimate env_no_font 16 "icon16.png" []
           {| exn_class := OSError; exn_str := "cannot open resource" |}).
  - unfold started, INT_MAX. cbn. repeat split; lia.
  - reflexivity.
Defined.

(** ** The background *)

(** C4: [create_icon] asks [Image.new] for a size-by-size RGB image in
    [#4285f4], which comes back filled with (66, 133, 244); the file it
    writes has that mode and those dimensions, and every pixel the glyph
    drawn on line 39 does not cover still has that colour. *)
Theorem C4_background E size filename t r t' dt path img :
  create_icon E size filename t = (r, t') ->
  t' = t ++ dt ->
  In (Written path img) dt ->
  (exists img0,
      Image_new E "RGB" (size, size) "#4285f4" t
      = (inr img0, t ++ [ImageNew "RGB" size size "#4285f4"]) /\
      im_mode img0 = "RGB" /\ im_width img0 = size /\ im_height img0 = size /\
      forall i j, im_getpixel img0 i j = (66, 133, 244)) /\
  im_mode img = "RGB" /\ im_width img = size /\ im_height img = size /\
  exists x y text fill font g pre post,
    dt = pre ++ DrawText x y text fill font :: post /\
    text_outcome E (t ++ pre ++ [DrawText x y text fill font]) = inr g /\
    forall i j, covered g x y i j = false ->
                im_getpixel img i j = (66, 133, 244).
Proof.
  intros Hrun -> Hin.
  apply create_icon_sound in Hrun. pose proof Hrun as Hev.
  apply icon_run_events in Hev as (dt' & Heq & Hall).
  apply app_inv_head in Heq. subst dt'.
  destruct (Hall _ Hin) as (-> & fs & wh & g & Hm & Hg & ->).
  pose proof Hm as ((Hsz & Ha & Hd) & Hfs & Hext).
  split.
  { exists (uniform "RGB" size size background).
    rewrite (Image_new_ok E size t Hsz Ha). repeat split. }
  split; [reflexivity|]. split; [reflexivity|]. split; [reflexivity|].
  destruct (create_icon_reaches_draw E size filename t fs wh Hm)
    as [(r' & rest & Hrun') _].
  apply create_icon_complete in Hrun. rewrite Hrun in Hrun'.
  injection Hrun' as _ Heq. rewrite <- !app_assoc in Heq.
  apply app_inv_head in Heq.
  set (font := font_at E (t ++ [ImageNew "RGB" size size "#4285f4"; DrawNew])) in *.
  exists (fst (placement size (fst wh) (snd wh))),
         (snd (placement size (fst wh) (snd wh))), "S", "white", font, g,
         (icon_prefix size ++ bbox_events font), rest.
  split; [same_trace|]. split; [same_trace|].
  intros i j Hc. unfold drawn, paste, covered in *. cbn [im_getpixel].
  destruct (g _ _); [discriminate|]. reflexivity.
Qed.

Lemma C4_background_witness :
  (exists img0,
      Image_new env_ok "RGB" (16, 16) "#4285f4" []
      = (inr img0, [] ++ [ImageNew "RGB" 16 16 "#4285f4"]) /\
      im_mode img0 = "RGB" /\ im_width img0 = 16 /\ im_height img0 = 16 /\
      forall i j, im_getpixel img0 i j = (66, 133, 244)) /\
  im_mode (drawn 16 (6, 11) block_glyph) = "RGB" /\
  im_width (drawn 16 (6, 11) block_glyph) = 16 /\
  im_height (drawn 16 (6, 11) block_glyph) = 16 /\
  exists x y text fill font g pre post,
    snd (create_icon env_ok 16 "icon16.png" [])
    = pre ++ DrawText x y text fill font :: post /\
    text_outcome env_ok ([] ++ pre ++ [DrawText x y text fill font]) = inr g /\
    forall i j, covered g x y i j = false ->
                im_getpixel (drawn 16 (6, 11) block_glyph) i j = (66, 133, 244).
Proof.
  apply (C4_background env_ok 16 "icon16.png" [] (inr tt)
           (snd (create_icon env_ok 16 "icon16.png" []))
           (snd (create_icon env_ok 16 "icon16.png" []))
           (icon_path "icon16.png") (drawn 16 (6, 11) block_glyph)).
  - reflexivity.
  - reflexivity.
  - vm_compute. tauto.
Defined.

(** ** The two handlers *)

(** An [ImportError] from line 7 is taken by the first clause. *)
Lemma import_error_handled E t e :
  import_outcome E (t ++ [ImportPIL]) = Some e ->
  is_ImportError e = true ->
  script E t = print_all E missing_pil_lines (t ++ [ImportPIL]).
Proof.
  intros Himp Hcls.
  assert (Hbody : try_body E t = (inl e, t ++ [ImportPIL])).
  { unfold try_body. apply bind_stop. now apply call_raises. }
  rewrite (script_handles _ _ _ _ Hbody).
  unfold handled, handler_lines. now rewrite Hcls.
Qed.

(** C5, as the code has it: when the import of Pillow raises
    [ImportError], no icon is attempted and no file is written, and the
    script sets out to print the seven fixed lines: how to install
    Pillow, or the four manual steps.  They are printed in order as far
    as standard output takes them: all seven, and the script ends
    normally, when every [print] returns; otherwise the lines before the
    first [print] that raises, and the script ends with the exception of
    that [print]. *)
Theorem C5_missing_pillow E t e :
  import_outcome E (t ++ [ImportPIL]) = Some e ->
  is_ImportError e = true ->
  let instructions :=
    [ "❌ PIL (Pillow) not found. Install it with:";
      "   pip install Pillow";
      (nl ++ "Alternatively, create icons manually:")%string;
      "1. Use any image editor to create 16x16, 32x32, 48x48, 128x128 PNG files";
      "2. Save them as icon16.png, icon32.png, icon48.png, icon128.png";
      "3. Place them in extension/icons/ folder";
      "4. Re-enable icon references in manifest.json" ] in
  exists shown rest dt,
    instructions = shown ++ rest /\
    snd (script E t) = t ++ dt /\
    renders dt = [] /\ written dt = [] /\ printed dt = shown /\
    match rest with
    | [] =>
        script E t = (inr tt, t ++ ImportPIL :: printing instructions)
    | line :: _ =>
        exists e',
          script E t
          = (inl e', t ++ ImportPIL :: printing shown ++ [CallPrint line]) /\
          print_outcome E (t ++ ImportPIL :: printing shown ++ [CallPrint line])
          = Some e'
    end /\
    (stdout_accepts E -> rest = []).
Proof.
  intros Himp Hcls instructions.
  rewrite (import_error_handled _ _ _ Himp Hcls).
  change missing_pil_lines with instructions.
  destruct (print_all_shape E instructions (t ++ [ImportPIL]))
    as (shown & rest & dh & Hl & Hs & Hr & Hw & Hp & Hend & Hok).
  exists shown, rest, (ImportPIL :: dh).
  split; [exact Hl|].
  split; [rewrite Hs; now rewrite <- app_assoc|].
  cbn [renders written printed].
  split; [exact Hr|]. split; [exact Hw|]. split; [exact Hp|].
  split; [|exact Hok].
  destruct rest as [|line rest].
  - rewrite Hend. now rewrite <- app_assoc.
  - destruct Hend as (e' & Hrun & Ho). exists e'.
    rewrite <- app_assoc in Hrun, Ho. auto.
Qed.

Lemma C5_missing_pillow_witness :
  exists shown rest dt,
    [ "❌ PIL (Pillow) not found. Install it with:";
      "   pip install Pillow";
      (nl ++ "Alternatively, create icons manually:")%string;
      "1. Use any image editor to create 16x16, 32x32, 48x48, 128x128 PNG files";
      "2. Save them as icon16.png, icon32.png, icon48.png, icon128.png";
      "3. Place them in extension/icons/ folder";
      "4. Re-enable icon references in manifest.json" ] = shown ++ rest /\
    snd (script env_no_pil []) = [] ++ dt /\
    renders dt = [] /\ written dt = [] /\ printed dt = shown /\
    match rest with
    | [] =>
        script env_no_pil []
        = (inr tt,
           [] ++ ImportPIL
              :: printing
                   [ "❌ PIL (Pillow) not found. Install it with:";
                     "   pip install Pillow";
                     (nl ++ "Alternatively, create icons manually:")%string;
                     "1. Use any image editor to create 16x16, 32x32, 48x48, 128x128 PNG files";
                     "2. Save them as icon16.png, icon32.png, icon48.png, icon128.png";
                     "3. Place them in extension/icons/ folder";
                     "4. Re-enable icon references in manifest.json" ])
    | line :: _ =>
        exists e',
          script env_no_pil []
          = (inl e', [] ++ ImportPIL :: printing shown ++ [CallPrint line]) /\
          print_outcome env_no_pil
            ([] ++ ImportPIL :: printing shown ++ [CallPrint line])
          = Some e'
    end /\
    (stdout_accepts env_no_pil -> rest = []).
Proof.
  apply (C5_missing_pillow env_no_pil []
           {| exn_class := ModuleNotFoundError;
              exn_str := "No module named 'PIL'" |}).
  - reflexivity.
  - reflexivity.
Defined.

(** C5 as the specification words it fails: with Pillow missing and a
    standard output in the ASCII encoding, the first line of the
    instructions cannot be encoded; its [print] raises inside the
    handler, no instruction is emitted and the script ends with
    [UnicodeEncodeError]. *)
Lemma C5_counterexample :
  import_outcome env_no_pil_ascii [ImportPIL]
  = Some {| exn_class := ModuleNotFoundError;
            exn_str := "No module named 'PIL'" |} /\
  is_ImportError {| exn_class := ModuleNotFoundError;
                    exn_str := "No module named 'PIL'" |} = true /\
  script env_no_pil_ascii []
  = (inl encode_error,
     [ImportPIL; CallPrint "❌ PIL (Pillow) not found. Install it with:"]) /\
  printed (snd (script env_no_pil_ascii [])) = [].
Proof. repeat split. Qed.

(** What the script does with an exception of the [try] body that is no
    [ImportError]. *)
Lemma other_exception_handled E t e tb :
  try_body E t = (inl e, tb) ->
  is_ImportError e = false ->
  script E t
  = (if is_Exception e then print_all E (error_lines e) tb else (inl e, tb)).
Proof.
  intros Hbody Hcls. rewrite (script_handles _ _ _ _ Hbody).
  unfold handled, handler_lines. rewrite Hcls. cbn [orb].
  destruct (is_Exception e); reflexivity.
Qed.

(** C6, as the code has it: when an icon raises after those before it
    were created, the batch halts.  [Image.new] has been called once for
    each icon up to the one that raised and is not called again, and
    nothing is written afterwards.  The files are those of the icons
    before it, and its own as well when the exception came from the
    announcement on line 44, after the save.  An exception that is no
    [ImportError] is taken by [except Exception] when it is an
    [Exception]: the script sets out to print the error line with
    [str(e)] and the remediation line, gets as far as standard output
    takes them, and ends normally when both are printed; any other
    exception ends the script with nothing printed after the raise. *)
Theorem C6_failure_halts_batch E t before size filename after t2 e t3 :
  icons = before ++ (size, filename) :: after ->
  import_outcome E (t ++ [ImportPIL]) = None ->
  run_icons E before (t ++ [ImportPIL]) = (inr tt, t2) ->
  create_icon E size filename t2 = (inl e, t3) ->
  let message :=
    [ ("❌ Error creating icons: " ++ exn_str e)%string;
      "Please create icons manually or use online tools." ] in
  exists d dh,
    t3 = t ++ d /\ snd (script E t) = t3 ++ dh /\
    renders d = batch_renders (before ++ [(size, filename)]) /\
    printed d = batch_lines before /\
    map file_summary (written d)
    = batch_files
        (before ++ if raised_by_print t3 then [(size, filename)] else []) /\
    (raised_by_print t3 = true -> print_outcome E t3 = Some e) /\
    renders dh = [] /\ written dh = [] /\
    (is_ImportError e = false ->
     if is_Exception e then
       exists shown rest,
         message = shown ++ rest /\ printed dh = shown /\
         match rest with
         | [] => script E t = (inr tt, t3 ++ printing message)
         | line :: _ =>
             exists e',
               script E t
               = (inl e', t3 ++ printing shown ++ [CallPrint line]) /\
               print_outcome E (t3 ++ printing shown ++ [CallPrint line])
               = Some e'
         end /\
         (stdout_accepts E -> rest = [])
     else script E t = (inl e, t3) /\ dh = []).
Proof.
  intros Hl Himp Hpre Hfail message.
  pose proof (try_body_raises _ _ _ _ _ _ _ _ _ Hl Himp Hpre Hfail) as Hbody.
  destruct (run_icons_raises_delta _ _ _ _ _ _ _ _ Hpre Hfail)
    as (d & Ht3 & Hr & Hp & Hw & Ho).
  destruct (script E t) as [r t'] eqn:Hscript.
  destruct (script_after_raise _ _ _ _ _ _ Hbody Hscript)
    as (dh & shown0 & rest0 & -> & _ & _ & Hwh & Hrh & _).
  exists ([ImportPIL] ++ d), dh.
  split; [rewrite Ht3; now rewrite <- app_assoc|].
  split; [reflexivity|].
  cbn [app renders printed written].
  split; [exact Hr|]. split; [exact Hp|]. split; [exact Hw|].
  split; [exact Ho|]. split; [exact Hrh|]. split; [exact Hwh|].
  intros Hcls.
  rewrite (other_exception_handled _ _ _ _ Hbody Hcls) in Hscript.
  destruct (is_Exception e).
  - change (error_lines e) with message in Hscript.
    destruct (print_all_shape E message t3)
      as (shown & rest & dh' & Hm & Hs & _ & _ & Hps & Hend & Hok).
    rewrite Hscript in Hs, Hend. cbn [snd] in Hs.
    apply app_inv_head in Hs. subst dh'.
    exists shown, rest. auto.
  - injection Hscript as <- Ht.
    assert (Hdh : dh = [])
      by (apply (app_inv_head t3); now rewrite app_nil_r).
    rewrite Hdh, app_nil_r. split; reflexivity.
Qed.

Lemma C6_failure_halts_batch_witness :
  let E := env_disk_full in
  let before := [(16, "icon16.png"); (32, "icon32.png")] in
  let e := {| exn_class := OSError;
              exn_str := "[Errno 28] No space left on device" |} in
  let t3 := snd (create_icon E 48 "icon48.png"
                   (snd (run_icons E before ([] ++ [ImportPIL])))) in
  let message :=
    [ ("❌ Error creating icons: " ++ exn_str e)%string;
      "Please create icons manually or use online tools." ] in
  exists d dh,
    t3 = [] ++ d /\ snd (script E []) = t3 ++ dh /\
    renders d = batch_renders (before ++ [(48, "icon48.png")]) /\
    printed d = batch_lines before /\
    map file_summary (written d)
    = batch_files
        (before ++ if raised_by_print t3 then [(48, "icon48.png")] else []) /\
    (raised_by_print t3 = true -> print_outcome E t3 = Some e) /\
    renders dh = [] /\ written dh = [] /\
    (is_ImportError e = false ->
     if is_Exception e then
       exists shown rest,
         message = shown ++ rest /\ printed dh = shown /\
         match rest with
         | [] => script E [] = (inr tt, t3 ++ printing message)
         | line :: _ =>
             exists e',
               script E []
               = (inl e', t3 ++ printing shown ++ [CallPrint line]) /\
               print_outcome E (t3 ++ printing shown ++ [CallPrint line])
               = Some e'
         end /\
         (stdout_accepts E -> rest = [])
     else script E [] = (inl e, t3) /\ dh = []).
Proof.
  intros E before e t3 message.
  apply (C6_failure_halts_batch env_disk_full [] before 48 "icon48.png"
           [(128, "icon128.png")]
           (snd (run_icons env_disk_full before ([] ++ [ImportPIL]))) e t3).
  - reflexivity.
  - reflexivity.
  - reflexivity.
  - vm_compute. reflexivity.
Defined.

(** The run behind the witness: two icons announced, then the error. *)
Example disk_full_stdout :
  script env_disk_full []
  = (inr tt, snd (script env_disk_full [])) /\
  printed (snd (script env_disk_full []))
  = [ "✅ Created icon16.png (16x16)"; "✅ Created icon32.png (32x32)";
      "❌ Error creating icons: [Errno 28] No space left on device";
      "Please create icons manually or use online tools." ] /\
  map file_summary (written (snd (script env_disk_full [])))
  = [ ("extension/icons/icon16.png", "RGB", 16, 16);
      ("extension/icons/icon32.png", "RGB", 32, 32) ].
Proof. repeat split. Qed.

(** C6 as the specification words it fails: on a standard output in the
    ASCII encoding the first icon is saved and its announcement, which
    starts with a check mark, cannot be encoded.  The exception is an
    [Exception] and no [ImportError], raised while the first icon is
    made; yet one file exists afterwards, not none, and no error message
    is printed, since the error line cannot be encoded either: the script
    ends with [UnicodeEncodeError]. *)
Lemma C6_counterexample :
  icons = [] ++ (16, "icon16.png")
             :: [(32, "icon32.png"); (48, "icon48.png"); (128, "icon128.png")] /\
  import_outcome env_ascii_stdout ([] ++ [ImportPIL]) = None /\
  run_icons env_ascii_stdout [] ([] ++ [ImportPIL]) = (inr tt, [ImportPIL]) /\
  fst (create_icon env_ascii_stdout 16 "icon16.png" [ImportPIL])
  = inl encode_error /\
  is_Exception encode_error = true /\
  is_ImportError encode_error = false /\
  map file_summary (written (snd (script env_ascii_stdout [])))
  = [("extension/icons/icon16.png", "RGB", 16, 16)] /\
  printed (snd (script env_ascii_stdout [])) = [] /\
  fst (script env_ascii_stdout []) = inl encode_error.
Proof. repeat split. Qed.

(** C7: when the [try] body runs to its end, [create_icon] was called once
    for each of 16, 32, 48 and 128, in that order, and exactly four files
    were written: icon16.png, icon32.png, icon48.png and icon128.png under
    extension/icons/, each an RGB image as wide and as high as its size. *)
Theorem C7_successful_run E t t' :
  try_body E t = (inr tt, t') ->
  exists dt,
    t' = t ++ dt /\
    script E t = (inr tt, t') /\
    renders dt
    = [ ("RGB", 16, 16, "#4285f4"); ("RGB", 32, 32, "#4285f4");
        ("RGB", 48, 48, "#4285f4"); ("RGB", 128, 128, "#4285f4") ] /\
    map file_summary (written dt)
    = [ ("extension/icons/icon16.png", "RGB", 16, 16);
        ("extension/icons/icon32.png", "RGB", 32, 32);
        ("extension/icons/icon48.png", "RGB", 48, 48);
        ("extension/icons/icon128.png", "RGB", 128, 128) ] /\
    printed dt = batch_lines icons ++ success_banner.
Proof.
  intros Hbody. pose proof (script_returns _ _ _ Hbody) as Hscript.
  rewrite try_body_eq in Hbody.
  apply bind_inr in Hbody as ([] & t0 & Himp & Hbody).
  apply call_inv in Himp as [-> _].
  apply bind_inr in Hbody as ([] & t1 & Hrun & Hbody).
  apply run_icons_ok in Hrun as (d & -> & Hr & Hw & Hp).
  destruct (print_all_cases _ _ _ _ _ Hbody)
    as [[_ ->]|(e & sh & line & rest & He & _)]; [|discriminate].
  destruct (printing_silent success_banner) as (Hpb & Hwb & Hrb).
  exists ([ImportPIL] ++ d ++ printing success_banner).
  split; [now rewrite <- !app_assoc|]. split; [exact Hscript|].
  rewrite !written_app, !renders_app, !printed_app, Hpb, Hwb, Hrb.
  cbn [written renders printed app]. rewrite !app_nil_r.
  rewrite Hr, Hw, Hp. repeat split.
Qed.

Lemma C7_successful_run_witness :
  exists dt,
    snd (try_body env_ok []) = [] ++ dt /\
    script env_ok [] = (inr tt, snd (try_body env_ok [])) /\
    renders dt
    = [ ("RGB", 16, 16, "#4285f4"); ("RGB", 32, 32, "#4285f4");
        ("RGB", 48, 48, "#4285f4"); ("RGB", 128, 128, "#4285f4") ] /\
    map file_summary (written dt)
    = [ ("extension/icons/icon16.png", "RGB", 16, 16);
        ("extension/icons/icon32.png", "RGB", 32, 32);
        ("extension/icons/icon48.png", "RGB", 48, 48);
        ("extension/icons/icon128.png", "RGB", 128, 128) ] /\
    printed dt = batch_lines icons ++ success_banner.
Proof.
  apply (C7_successful_run env_ok [] (snd (try_body env_ok []))).
  reflexivity.
Defined.

(** ** Exceptions inside [create_icon] *)

(** C8: whatever exception loading the default font raises, the font step
    yields [None] and raises nothing; the run goes on to line 39 with no
    font and the fallback estimate.  When the calls after the font step
    return, the file is written and the run returns; it raises after
    that only if the announcement on line 44 does. *)
Theorem C8_font_failure_contained E size filename t e :
  started E size t ->
  load_default_outcome E (t ++ icon_prefix size) = inl e ->
  let font_size := 6 * size / 10 in
  let t5 :=
    t ++ icon_prefix size
      ++ [DrawText ((size - font_size / 2) / 2) ((size - font_size) / 2)
                   "S" "white" None] in
  resolve_font E (t ++ [ImageNew "RGB" size size "#4285f4"; DrawNew])
  = (inr None, t ++ icon_prefix size) /\
  (exists r rest, create_icon E size filename t = (r, t5 ++ rest)) /\
  (forall g,
      text_outcome E t5 = inr g ->
      makedirs_outcome E (t5 ++ [MakeDirs "extension/icons" true]) = None ->
      save_outcome E
        (t5 ++ [MakeDirs "extension/icons" true; Save (icon_path filename)])
      = None ->
      let img := drawn size (font_size / 2, font_size) g in
      (print_outcome E (t5 ++ icon_saved filename size img) = None ->
       create_icon E size filename t
       = (inr tt, t5 ++ icon_suffix filename size img)) /\
      (forall e',
          print_outcome E (t5 ++ icon_saved filename size img) = Some e' ->
          create_icon E size filename t
          = (inl e', t5 ++ icon_saved filename size img))).
Proof.
  intros Hst Hload fs t5.
  destruct (no_font_measured E size t e Hst Hload) as [Hfont Hm].
  split.
  { rewrite resolve_font_eq, Hfont. f_equal. same_trace. }
  destruct (create_icon_reaches_draw E size filename t _ _ Hm) as [Hreach Hdone].
  rewrite Hfont in Hreach, Hdone. cbn [bbox_events app] in Hreach, Hdone.
  unfold draw_call, placement in Hreach, Hdone.
  cbn [fst snd] in Hreach, Hdone.
  split.
  - destruct Hreach as (r & rest & Hrun). exists r, rest.
    rewrite Hrun. subst t5 fs. f_equal; same_trace.
  - intros g Hg Hk Hv img. subst t5 fs img. specialize (Hdone g).
    unfold icon_prefix, icon_suffix, icon_saved in *. norm_trace.
    exact (Hdone Hg Hk Hv).
Qed.

Lemma C8_font_failure_contained_witness :
  let t5 := [] ++ icon_prefix 16 ++ [DrawText 6 3 "S" "white" None] in
  resolve_font env_no_font ([] ++ [ImageNew "RGB" 16 16 "#4285f4"; DrawNew])
  = (inr None, [] ++ icon_prefix 16) /\
  (exists r rest,
      create_icon env_no_font 16 "icon16.png" [] = (r, t5 ++ rest)) /\
  (forall g,
      text_outcome env_no_font t5 = inr g ->
      makedirs_outcome env_no_font
        (t5 ++ [MakeDirs "extension/icons" true]) = None ->
      save_outcome env_no_font
        (t5 ++ [MakeDirs "extension/icons" true; Save (icon_path "icon16.png")])
      = None ->
      let img := drawn 16 (4, 9) g in
      (print_outcome env_no_font (t5 ++ icon_saved "icon16.png" 16 img) = None ->
       create_icon env_no_font 16 "icon16.png" []
       = (inr tt, t5 ++ icon_suffix "icon16.png" 16 img)) /\
      (forall e',
          print_outcome env_no_font (t5 ++ icon_saved "icon16.png" 16 img)
          = Some e' ->
          create_icon env_no_font 16 "icon16.png" []
          = (inl e', t5 ++ icon_saved "icon16.png" 16 img))).
Proof.
  apply (C8_font_failure_contained env_no_font 16 "icon16.png" []
           {| exn_class := OSError; exn_str := "cannot open resource" |}).
  - unfold started, INT_MAX. cbn. repeat split; lia.
  - reflexivity.
Defined.

(** C9: a line announcing a created icon is printed only after the event
    that wrote the file.  In every run of [create_icon] the only line it
    can print is its own announcement, and the file is written before it;
    in every run of the script, whatever its outcome, each announcement
    printed is that of one of the four icons and comes after the writing
    of that icon's file, an RGB image of the announced size. *)
Theorem C9_announced_after_saved E :
  (forall size filename t r t' pre line post,
      create_icon E size filename t = (r, t') ->
      t' = t ++ pre ++ Printed line :: post ->
      line = created_line filename size /\
      exists img, In (Written (icon_path filename) img) pre) /\
  (forall t r t' pre line post,
      script E t = (r, t') ->
      t' = t ++ pre ++ Printed line :: post ->
      announces line = true ->
      exists size filename img,
        In (size, filename) icons /\
        line = created_line filename size /\
        In (Written (icon_path filename) img) pre /\
        file_summary (icon_path filename, img)
        = (icon_path filename, "RGB", size, size)).
Proof.
  split.
  - intros size filename t r t' pre line post Hrun Ht.
    apply create_icon_sound in Hrun. destruct r as [e|[]].
    + apply icon_run_delta in Hrun as (dt & -> & _ & Hp & _).
      apply app_inv_head in Ht. exfalso.
      eapply no_print_split; eassumption.
    + apply icon_run_created_shape in Hrun as (b & img & -> & Hp & Hin & _).
      apply app_inv_head in Ht.
      apply last_print_split in Ht as (-> & -> & ->); [|exact Hp].
      split; [reflexivity|]. exists img. exact Hin.
  - intros t r t' pre line post Hrun Ht Hann.
    apply script_announces in Hrun as (dt & -> & Hsaved).
    apply app_inv_head in Ht.
    exact (Hsaved pre line post Ht Hann).
Qed.

Lemma C9_announced_after_saved_witness :
  exists size filename img,
    In (size, filename) icons /\
    "✅ Created icon32.png (32x32)" = created_line filename size /\
    In (Written (icon_path filename) img)
       (firstn 20 (snd (script env_ok []))) /\
    file_summary (icon_path filename, img)
    = (icon_path filename, "RGB", size, size).
Proof.
  apply (proj2 (C9_announced_after_saved env_ok) [] (inr tt)
           (snd (script env_ok []))
           (firstn 20 (snd (script env_ok [])))
           "✅ Created icon32.png (32x32)"
           (skipn 21 (snd (script env_ok [])))).
  - reflexivity.
  - reflexivity.
  - reflexivity.
Defined.

(** C10: the estimate stands in for a missing font only.  When a font is
    obtained and measuring the label raises, the measuring step yields
    the exception, [create_icon] ends with it right after [textbbox],
    without drawing, and so does the [try] body, whichever icon it was:
    the exception goes to the clause of the script that takes it, and
    out of the script when none does; what follows is printing only, no
    further icon is started and nothing is written. *)
Theorem C10_measuring_failure_propagates
        E t before size filename after t2 font e :
  icons = before ++ (size, filename) :: after ->
  import_outcome E (t ++ [ImportPIL]) = None ->
  run_icons E before (t ++ [ImportPIL]) = (inr tt, t2) ->
  started E size t2 ->
  load_default_outcome E (t2 ++ icon_prefix size) = inr font ->
  textbbox_outcome E (t2 ++ icon_prefix size ++ [TextBBox 0 0 "S" font])
  = inl e ->
  let t4 := t2 ++ icon_prefix size ++ [TextBBox 0 0 "S" font] in
  (forall font_size,
      extent_at E (Some font) font_size (t2 ++ icon_prefix size) = inl e) /\
  create_icon E size filename t2 = (inl e, t4) /\
  try_body E t = (inl e, t4) /\
  script E t
  = (if handled e then print_all E (handler_lines e) t4 else (inl e, t4)) /\
  (exists dh shown rest,
      snd (script E t) = t4 ++ dh /\
      renders dh = [] /\ written dh = [] /\
      handler_lines e = shown ++ rest /\ printed dh = shown) /\
  (stdout_accepts E ->
   script E t
   = (if handled e then inr tt else inl e,
      t4 ++ printing (handler_lines e))).
Proof.
  intros Hl Himp Hpre Hst Hload Hbbox t4.
  assert (Hfont : font_at E (t2 ++ [ImageNew "RGB" size size "#4285f4"; DrawNew])
                  = Some font).
  { rewrite font_at_eq. unfold icon_prefix in Hload. norm_trace.
    now rewrite Hload. }
  assert (Hext : forall fs,
             extent_at E (Some font) fs (t2 ++ icon_prefix size) = inl e).
  { intros fs. rewrite extent_at_font, <- app_assoc. now rewrite Hbbox. }
  assert (Hrun : create_icon E size filename t2 = (inl e, t4)).
  { apply create_icon_complete. subst t4.
    replace (t2 ++ icon_prefix size ++ [TextBBox 0 0 "S" font])
      with ((t2 ++ icon_prefix size)
              ++ bbox_events
                   (font_at E (t2 ++ [ImageNew "RGB" size size "#4285f4"; DrawNew])))
      by (rewrite Hfont; cbn [bbox_events]; now rewrite <- app_assoc).
    eapply (run_textbbox_raises E size filename t2 e (6 * size / 10)).
    - exact Hst.
    - now apply (started_font_size E size t2).
    - rewrite Hfont. apply Hext. }
  pose proof (try_body_raises _ _ _ _ _ _ _ _ _ Hl Himp Hpre Hrun) as Hbody.
  pose proof (script_handles _ _ _ _ Hbody) as Hscript.
  split; [exact Hext|]. split; [exact Hrun|]. split; [exact Hbody|].
  split; [exact Hscript|]. split.
  - destruct (script E t) as [r t'] eqn:Hs.
    destruct (script_after_raise _ _ _ _ _ _ Hbody Hs)
      as (dh & shown & rest & -> & Hlines & Hp & Hw & Hr & _).
    exists dh, shown, rest. auto.
  - intros Hok. rewrite Hscript. unfold handled, handler_lines.
    destruct (is_ImportError e); cbn [orb];
      [now apply print_all_ok|].
    destruct (is_Exception e); [now apply print_all_ok|].
    cbn [printing flat_map]. now rewrite app_nil_r.
Qed.

Lemma C10_measuring_failure_propagates_witness :
  let E := env_bbox_fails in
  let e := {| exn_class := ValueError;
              exn_str := "Only supported for TrueType fonts" |} in
  let t4 := ([] ++ [ImportPIL]) ++ icon_prefix 16
              ++ [TextBBox 0 0 "S" default_font] in
  (forall font_size,
      extent_at E (Some default_font) font_size
        (([] ++ [ImportPIL]) ++ icon_prefix 16) = inl e) /\
  create_icon E 16 "icon16.png" ([] ++ [ImportPIL]) = (inl e, t4) /\
  try_body E [] = (inl e, t4) /\
  script E []
  = (if handled e then print_all E (handler_lines e) t4 else (inl e, t4)) /\
  (exists dh shown rest,
      snd (script E []) = t4 ++ dh /\
      renders dh = [] /\ written dh = [] /\
      handler_lines e = shown ++ rest /\ printed dh = shown) /\
  (stdout_accepts E ->
   script E []
   = (if handled e then inr tt else inl e,
      t4 ++ printing (handler_lines e))).
Proof.
  apply (C10_measuring_failure_propagates env_bbox_fails [] []
           16 "icon16.png"
           [(32, "icon32.png"); (48, "icon48.png"); (128, "icon128.png")]
           ([] ++ [ImportPIL]) default_font
           {| exn_class := ValueError;
              exn_str := "Only supported for TrueType fonts" |}).
  - reflexivity.
  - reflexivity.
  - reflexivity.
  - unfold started, INT_MAX. cbn. repeat split; lia.
  - reflexivity.
  - reflexivity.
Defined.

(** * More of the script *)

(** X1: [int(size * 0.6)], computed in binary64, is exactly the floor of
    six tenths of [size] for every size from 0 up to 2^50: neither the
    inexact literal 0.6 nor the rounding of the product shows. *)
Theorem X1_font_size_exact size :
  0 <= size < 2 ^ 50 -> font_size_of size = inr (6 * size / 10).
Proof. intros H. now apply font_size_of_floor. Qed.

Lemma X1_font_size_exact_witness : font_size_of 128 = inr (6 * 128 / 10).
Proof. apply (X1_font_size_exact 128). split; [lia|reflexivity]. Defined.

(** ** Every way the script can go *)


Lemma banner_not_handler e : ~ In banner_line (handler_lines e).
Proof.
  unfold handler_lines, banner_line, nl.
  destruct (is_ImportError e); [cbn; intuition discriminate|].
  destruct (is_Exception e); cbn; intuition discriminate.
Qed.

Lemma quiet_prefix (lines shown rest : list string) :
  forallb (fun line => negb (announces line)) lines = true ->
  lines = shown ++ rest ->
  forallb (fun line => negb (announces line)) shown = true.
Proof.
  intros H ->. rewrite forallb_app in H.
  now apply andb_true_iff in H as [H _].
Qed.

(** What any run of the script leaves behind: [Image.new] calls for an
    initial part [made] of the four icons, files for [saved], which is
    [made] or [made] without its last icon, announcements for
    [announced], which is [saved] or [saved] without its last icon, and
    then lines [tail] that announce nothing; the banner is among them
    only when all four files are written. *)
Lemma script_runs E t :
  exists dt made saved announced tail,
    snd (script E t) = t ++ dt /\
    renders dt = batch_renders made /\
    map file_summary (written dt) = batch_files saved /\
    printed dt = batch_lines announced ++ tail /\
    (exists rest, icons = made ++ rest) /\
    (made = saved \/ exists sf, made = saved ++ [sf]) /\
    (saved = announced \/ exists sf, saved = announced ++ [sf]) /\
    forallb (fun line => negb (announces line)) tail = true /\
    (In banner_line tail -> saved = icons).
Proof.
  destruct (script E t) as [r t'] eqn:Hs. cbn [snd].
  destruct (try_body_cases E t)
    as [(t1 & Hi & Hr & Hb)
       |[(e & Hi & Hb)
        |[(b & s & f & a & t2 & e & t3 & Hl & Hi & Hr & Hf & Hb)
         |(t1 & e & tb & Hi & Hr & Hp & Hb)]]].
  - rewrite (script_returns _ _ _ Hb) in Hs. injection Hs as <- <-.
    apply run_icons_ok in Hr as (d & -> & Hrn & Hw & Hp).
    destruct (printing_silent success_banner) as (Hpb & Hwb & Hrb).
    exists ([ImportPIL] ++ d ++ printing success_banner),
           icons, icons, icons, success_banner.
    split; [now rewrite <- !app_assoc|].
    rewrite !written_app, !renders_app, !printed_app, Hpb, Hwb, Hrb.
    cbn [written renders printed app]. rewrite !app_nil_r.
    split; [exact Hrn|]. split; [exact Hw|]. split; [now rewrite Hp|].
    split; [exists []; now rewrite app_nil_r|].
    split; [now left|]. split; [now left|].
    split; [exact banner_not_announcing|reflexivity].
  - destruct (script_after_raise _ _ _ _ _ _ Hb Hs)
      as (dh & shown & rest & -> & Hlines & Hp & Hw & Hrn & _).
    exists ([ImportPIL] ++ dh), [], [], [], shown.
    split; [now rewrite <- !app_assoc|].
    cbn [written renders printed app batch_renders batch_files batch_lines map].
    split; [exact Hrn|]. split; [now rewrite Hw|]. split; [exact Hp|].
    split; [now exists icons|].
    split; [now left|]. split; [now left|].
    split; [exact (quiet_prefix _ _ _ (handler_not_announcing e) Hlines)|].
    intros Hin. exfalso. apply (banner_not_handler e).
    rewrite Hlines, in_app_iff. now left.
  - destruct (script_after_raise _ _ _ _ _ _ Hb Hs)
      as (dh & shown & rest & -> & Hlines & Hp & Hw & Hrn & _).
    destruct (run_icons_raises_delta _ _ _ _ _ _ _ _ Hr Hf)
      as (d & Ht3 & Hrd & Hpd & Hwd & _).
    exists ([ImportPIL] ++ d ++ dh), (b ++ [(s, f)]),
           (b ++ if raised_by_print t3 then [(s, f)] else []), b, shown.
    split; [rewrite Ht3; now rewrite <- !app_assoc|].
    rewrite !written_app, !renders_app, !printed_app, Hw, Hrn, Hp, Hrd, Hpd.
    cbn [written renders printed app]. rewrite !app_nil_r.
    split; [reflexivity|]. split; [exact Hwd|]. split; [reflexivity|].
    split; [exists a; now rewrite <- app_assoc|].
    split.
    { destruct (raised_by_print t3); [now left|].
      right. exists (s, f). now rewrite app_nil_r. }
    split.
    { destruct (raised_by_print t3); [|left; now rewrite app_nil_r].
      right. now exists (s, f). }
    split; [exact (quiet_prefix _ _ _ (handler_not_announcing e) Hlines)|].
    intros Hin. exfalso. apply (banner_not_handler e).
    rewrite Hlines, in_app_iff. now left.
  - destruct (script_after_raise _ _ _ _ _ _ Hb Hs)
      as (dh & shown & rest & -> & Hlines & Hph & Hwh & Hrh & _).
    apply run_icons_ok in Hr as (d & -> & Hrn & Hw & Hpd).
    apply print_all_delta in Hp
      as (db & shownb & restb & -> & Hlb & Hpb & Hwb & Hrb & _).
    exists ([ImportPIL] ++ d ++ db ++ dh), icons, icons, icons,
           (shownb ++ shown).
    split; [now rewrite <- !app_assoc|].
    rewrite !written_app, !renders_app, !printed_app,
      Hwh, Hrh, Hph, Hwb, Hrb, Hpb, Hrn, Hpd.
    cbn [written renders printed app]. rewrite !app_nil_r.
    split; [reflexivity|]. split; [exact Hw|]. split; [reflexivity|].
    split; [exists []; now rewrite app_nil_r|].
    split; [now left|]. split; [now left|].
    split; [|reflexivity].
    rewrite forallb_app.
    rewrite (quiet_prefix _ _ _ banner_not_announcing Hlb).
    exact (quiet_prefix _ _ _ (handler_not_announcing e) Hlines).
Qed.

(** X2: in every run of the script, whatever its outcome, the images
    asked of [Image.new] are those of an initial part of the four icons,
    in order; the files written are those of the same icons, or of all
    but the last of them; the announcements printed are those of the
    files written, or of all but the last of them; and whatever is
    printed after them announces nothing. *)
Theorem X2_script_outcomes E t :
  exists dt made saved announced tail,
    snd (script E t) = t ++ dt /\
    renders dt = batch_renders made /\
    map file_summary (written dt) = batch_files saved /\
    printed dt = batch_lines announced ++ tail /\
    (exists rest, icons = made ++ rest) /\
    (made = saved \/ exists sf, made = saved ++ [sf]) /\
    (saved = announced \/ exists sf, saved = announced ++ [sf]) /\
    forallb (fun line => negb (String.prefix "✅ Created " line)) tail = true.
Proof.
  destruct (script_runs E t)
    as (dt & made & saved & announced & tail
        & H1 & H2 & H3 & H4 & H5 & H6 & H7 & H8 & _).
  exists dt, made, saved, announced, tail. auto 10.
Qed.

(** X3: on a standard output that accepts every line, the script ends
    with an uncaught exception exactly when its [try] body raised a
    [BaseException] that is no [Exception], such as [KeyboardInterrupt];
    then no handler runs and nothing is printed after the raise. *)
Theorem X3_uncaught_only_base_exceptions E t e t' :
  stdout_accepts E ->
  (script E t = (inl e, t') <->
   try_body E t = (inl e, t') /\
   is_Exception e = false /\ is_ImportError e = false).
Proof.
  intros Hok. split.
  - intros Hs. destruct (try_body E t) as [[e0|[]] t0] eqn:Hb.
    + rewrite (script_handles _ _ _ _ Hb) in Hs.
      destruct (handled e0) eqn:Hh.
      * rewrite (print_all_ok _ _ _ Hok) in Hs. discriminate.
      * injection Hs as <- <-. unfold handled in Hh.
        apply orb_false_elim in Hh as [Hi Hx]. auto.
    + rewrite (script_returns _ _ _ Hb) in Hs. discriminate.
  - intros (Hb & Hx & Hi). rewrite (script_handles _ _ _ _ Hb).
    unfold handled. now rewrite Hx, Hi.
Qed.

Lemma X3_uncaught_only_base_exceptions_witness :
  script env_interrupted []
  = (inl {| exn_class := KeyboardInterrupt; exn_str := "" |},
     snd (try_body env_interrupted [])).
Proof.
  apply (proj2 (X3_uncaught_only_base_exceptions env_interrupted []
                  {| exn_class := KeyboardInterrupt; exn_str := "" |}
                  (snd (try_body env_interrupted []))
                  (fun _ => eq_refl))).
  repeat split.
Defined.

(** X4: the first handler takes an [ImportError] from anywhere in the
    [try] body, not only from the import.  When an icon raises one after
    other icons were created, their files stay, and on a standard output
    that accepts every line the script prints the seven lines for a
    missing Pillow, without the exception's text, and ends normally. *)
Theorem X4_late_import_error E t before size filename after t2 e t3 :
  icons = before ++ (size, filename) :: after ->
  import_outcome E (t ++ [ImportPIL]) = None ->
  run_icons E before (t ++ [ImportPIL]) = (inr tt, t2) ->
  create_icon E size filename t2 = (inl e, t3) ->
  is_ImportError e = true ->
  stdout_accepts E ->
  exists dt,
    script E t = (inr tt, t ++ dt) /\
    map file_summary (written dt) = batch_files before /\
    printed dt
    = batch_lines before
        ++ [ "❌ PIL (Pillow) not found. Install it with:";
             "   pip install Pillow";
             (nl ++ "Alternatively, create icons manually:")%string;
             "1. Use any image editor to create 16x16, 32x32, 48x48, 128x128 PNG files";
             "2. Save them as icon16.png, icon32.png, icon48.png, icon128.png";
             "3. Place them in extension/icons/ folder";
             "4. Re-enable icon references in manifest.json" ].
Proof.
  intros Hl Himp Hpre Hfail Hcls Hok.
  pose proof (try_body_raises _ _ _ _ _ _ _ _ _ Hl Himp Hpre Hfail) as Hbody.
  rewrite (script_handles _ _ _ _ Hbody).
  unfold handled, handler_lines. rewrite Hcls. cbn [orb].
  rewrite (print_all_ok _ _ _ Hok).
  destruct (run_icons_raises_delta _ _ _ _ _ _ _ _ Hpre Hfail)
    as (d & -> & Hr & Hp & Hw & Ho).
  destruct (raised_by_print ((t ++ [ImportPIL]) ++ d)).
  { rewrite Hok in Ho. now specialize (Ho eq_refl). }
  rewrite app_nil_r in Hw.
  destruct (printing_silent missing_pil_lines) as (Hpm & Hwm & _).
  exists ([ImportPIL] ++ d ++ printing missing_pil_lines).
  split; [now rewrite <- !app_assoc|].
  rewrite !written_app, !printed_app, Hpm, Hwm.
  cbn [written printed app]. rewrite !app_nil_r.
  split; [exact Hw|]. now rewrite Hp.
Qed.

Lemma X4_late_import_error_witness :
  exists dt,
    script env_late_import_error [] = (inr tt, [] ++ dt) /\
    map file_summary (written dt) = batch_files [(16, "icon16.png")] /\
    printed dt
    = batch_lines [(16, "icon16.png")]
        ++ [ "❌ PIL (Pillow) not found. Install it with:";
             "   pip install Pillow";
             (nl ++ "Alternatively, create icons manually:")%string;
             "1. Use any image editor to create 16x16, 32x32, 48x48, 128x128 PNG files";
             "2. Save them as icon16.png, icon32.png, icon48.png, icon128.png";
             "3. Place them in extension/icons/ folder";
             "4. Re-enable icon references in manifest.json" ].
Proof.
  apply (X4_late_import_error env_late_import_error []
           [(16, "icon16.png")] 32 "icon32.png"
           [(48, "icon48.png"); (128, "icon128.png")]
           (snd (run_icons env_late_import_error [(16, "icon16.png")]
                   ([] ++ [ImportPIL])))
           {| exn_class := ImportError;
              exn_str := "The _imagingft C module is not installed" |}
           (snd (create_icon env_late_import_error 32 "icon32.png"
                   (snd (run_icons env_late_import_error [(16, "icon16.png")]
                           ([] ++ [ImportPIL])))))).
  - reflexivity.
  - reflexivity.
  - reflexivity.
  - vm_compute. reflexivity.
  - reflexivity.
  - intros t0. reflexivity.
Defined.

(** ** The banner *)



(** ** The fallback path stays in the frame *)

(** X6: with no font, the label box the estimate describes always lies
    inside the icon: the offsets line 39 uses are not negative, and the
    estimated width and height added to them do not pass the size. *)
Theorem X6_fallback_label_in_frame
        E size filename t e r t' dt x y text fill font :
  started E size t ->
  load_default_outcome E (t ++ icon_prefix size) = inl e ->
  create_icon E size filename t = (r, t') ->
  t' = t ++ dt ->
  In (DrawText x y text fill font) dt ->
  font = None /\
  0 <= x /\ x + 6 * size / 10 / 2 <= size /\
  0 <= y /\ y + 6 * size / 10 <= size.
Proof.
  intros Hst Hload Hrun -> Hin.
  destruct (no_font_measured E size t e Hst Hload) as [Hfont _].
  apply create_icon_sound, icon_run_events in Hrun as (dt' & Heq & Hall).
  apply app_inv_head in Heq. subst dt'.
  destruct (Hall _ Hin) as (fs & wh & (_ & Hfs & Hext) & Hev).
  rewrite Hfont in Hext, Hev. rewrite extent_at_no_font in Hext.
  injection Hext as <-.
  unfold draw_call, placement in Hev. cbn [fst snd] in Hev.
  injection Hev as -> -> _ _ ->.
  assert (Hfs' : fs = 6 * size / 10)
    by (rewrite (started_font_size E size t Hst) in Hfs; congruence).
  destruct Hst as ([Hlo _] & _).
  split; [reflexivity|].
  pose proof (Z.div_mod (6 * size) 10 ltac:(lia)).
  pose proof (Z.mod_pos_bound (6 * size) 10 ltac:(lia)).
  rewrite <- Hfs' in *. clear Hfs Hall Hin.
  assert (0 <= fs <= size) by lia.
  pose proof (Z.div_mod fs 2 ltac:(lia)).
  pose proof (Z.mod_pos_bound fs 2 ltac:(lia)).
  set (w := fs / 2) in *.
  pose proof (Z.div_mod (size - w) 2 ltac:(lia)).
  pose proof (Z.mod_pos_bound (size - w) 2 ltac:(lia)).
  pose proof (Z.div_mod (size - fs) 2 ltac:(lia)).
  pose proof (Z.mod_pos_bound (size - fs) 2 ltac:(lia)).
  lia.
Qed.

Lemma X6_fallback_label_in_frame_witness :
  @None Font = None /\
  0 <= 6 /\ 6 + 6 * 16 / 10 / 2 <= 16 /\
  0 <= 3 /\ 3 + 6 * 16 / 10 <= 16.
Proof.
  apply (X6_fallback_label_in_frame env_no_font 16 "icon16.png" []
           {| exn_class := OSError; exn_str := "cannot open resource" |}
           (inr tt)
           (snd (create_icon env_no_font 16 "icon16.png" []))
           (snd (create_icon env_no_font 16 "icon16.png" []))
           6 3 "S" "white" None).
  - unfold started, INT_MAX. cbn. repeat split; lia.
  - reflexivity.
  - reflexivity.
  - reflexivity.
  - vm_compute. tauto.
Defined.

(** ** One call, one icon *)

(** X8: a call of [create_icon] asks [Image.new] for exactly one image.
    When it returns it has written exactly one file, at
    extension/icons/ followed by the file name, and printed exactly one
    line.  When it raises it has printed nothing, and it has written no
    file unless the exception came from the announcement on line 44:
    then the file is there. *)
Theorem X8_one_call_one_icon E size filename t r t' dt :
  create_icon E size filename t = (r, t') ->
  t' = t ++ dt ->
  renders dt = [("RGB", size, size, "#4285f4")] /\
  match r with
  | inr _ =>
      exists img,
        written dt = [(("extension/icons/" ++ filename)%string, img)] /\
        printed dt = [created_line filename size]
  | inl e =>
      printed dt = [] /\
      if raised_by_print t' then
        print_outcome E t' = Some e /\
        exists img,
          written dt = [(("extension/icons/" ++ filename)%string, img)]
      else written dt = []
  end.
Proof.
  intros Hrun ->. apply create_icon_sound in Hrun.
  destruct r as [e|u].
  - apply icon_run_raised in Hrun as (dt' & Heq & Hr & Hp & Hw).
    apply app_inv_head in Heq. subst dt'.
    split; [exact Hr|]. split; [exact Hp|].
    destruct (raised_by_print (t ++ dt)); [|exact Hw].
    destruct Hw as (Ho & img & pre & Hw & _). eauto.
  - apply icon_run_delta in Hrun as (dt' & Heq & Hr & img & Hw & _ & Hp).
    apply app_inv_head in Heq. subst dt'.
    split; [exact Hr|]. exists img. auto.
Qed.

Lemma X8_one_call_one_icon_witness :
  renders (snd (create_icon env_ok 16 "icon16.png" []))
  = [("RGB", 16, 16, "#4285f4")] /\
  exists img,
    written (snd (create_icon env_ok 16 "icon16.png" []))
    = [(("extension/icons/" ++ "icon16.png")%string, img)] /\
    printed (snd (create_icon env_ok 16 "icon16.png" []))
    = [created_line "icon16.png" 16].
Proof.
  apply (X8_one_call_one_icon env_ok 16 "icon16.png" [] (inr tt)
           (snd (create_icon env_ok 16 "icon16.png" []))
           (snd (create_icon env_ok 16 "icon16.png" []))).
  - reflexivity.
  - reflexivity.
Defined.

(** A run on an ASCII standard output: the file is written, the
    announcement raises. *)
Example ascii_stdout_icon :
  fst (create_icon env_ascii_stdout 16 "icon16.png" []) = inl encode_error /\
  map file_summary (written (snd (create_icon env_ascii_stdout 16 "icon16.png" [])))
  = [("extension/icons/icon16.png", "RGB", 16, 16)] /\
  printed (snd (create_icon env_ascii_stdout 16 "icon16.png" [])) = [].
Proof. repeat split. Qed.

(** ** The directory comes first *)

Lemma split_unique {A} (a b pre post : list A) (x y : A) :
  a ++ x :: b = pre ++ y :: post ->
  ~ In y a -> ~ In y b ->
  pre = a /\ x = y /\ post = b.
Proof.
  intros H Ha Hb. apply split_app in H as [(p & -> & _)|(p & -> & H)].
  - exfalso. apply Ha, in_elt.
  - destruct p as [|z p]; cbn in H.
    + injection H as -> ->. now rewrite app_nil_r.
    + injection H as _ ->. exfalso. apply Hb, in_elt.
Qed.

(** The calls of a run up to line 39 save nothing. *)
Lemma no_save_before_draw size font wh path :
  ~ In (Save path)
       (icon_prefix size ++ bbox_events font ++ [draw_call size font wh]).
Proof.
  unfold icon_prefix, draw_call. rewrite !in_app_iff. cbn [In].
  destruct font; cbn [bbox_events In]; intuition discriminate.
Qed.

(** X7: [create_icon] saves at most once, to extension/icons/ followed by
    the file name, and the call just before the save is
    [os.makedirs('extension/icons', exist_ok=True)]: the directory is
    there when the file is written, and an existing directory is no
    error. *)
Theorem X7_makedirs_before_save E size filename t r t' pre path post :
  create_icon E size filename t = (r, t') ->
  t' = t ++ pre ++ Save path :: post ->
  path = ("extension/icons/" ++ filename)%string /\
  (exists pre', pre = pre' ++ [MakeDirs "extension/icons" true]) /\
  (forall path', ~ In (Save path') pre) /\
  (forall path', ~ In (Save path') post).
Proof.
  intros Hrun Ht. apply create_icon_sound in Hrun.
  assert (Hshape :
    (forall p, ~ In (Save p) (pre ++ Save path :: post)) \/
    exists a b,
      pre ++ Save path :: post
      = (a ++ [MakeDirs "extension/icons" true]) ++ Save (icon_path filename) :: b /\
      (forall p, ~ In (Save p) (a ++ [MakeDirs "extension/icons" true])) /\
      (forall p, ~ In (Save p) b)).
  { destruct Hrun; unfold icon_suffix, icon_saved in Ht;
      rewrite <- ?app_assoc in Ht; apply app_inv_head in Ht;
      rewrite <- Ht; clear Ht.
    1-8: left; intros p Hin;
         unfold icon_prefix, draw_call in Hin;
         cbn [app In] in Hin; rewrite ?in_app_iff in Hin; cbn [In] in Hin;
         repeat match goal with
           | H : _ \/ _ |- _ => destruct H
           | H : False |- _ => destruct H
           | H : In _ (bbox_events ?f) |- _ =>
               destruct f; cbn [bbox_events In] in H
           end; discriminate.
    - right.
      exists (icon_prefix size
                ++ bbox_events
                     (font_at E (t ++ [ImageNew "RGB" size size "#4285f4"; DrawNew]))
                ++ [draw_call size
                      (font_at E (t ++ [ImageNew "RGB" size size "#4285f4"; DrawNew]))
                      wh]), [].
      split; [now rewrite <- !app_assoc|]. split.
      + intros p Hin. rewrite in_app_iff in Hin. destruct Hin as [Hin|Hin].
        * now apply no_save_before_draw in Hin.
        * cbn [In] in Hin. intuition discriminate.
      + intros p [].
    - right.
      exists (icon_prefix size
                ++ bbox_events
                     (font_at E (t ++ [ImageNew "RGB" size size "#4285f4"; DrawNew]))
                ++ [draw_call size
                      (font_at E (t ++ [ImageNew "RGB" size size "#4285f4"; DrawNew]))
                      wh]),
             [Written (icon_path filename) (drawn size wh g);
              CallPrint (created_line filename size)].
      split; [now rewrite <- !app_assoc|]. split.
      + intros p Hin. rewrite in_app_iff in Hin. destruct Hin as [Hin|Hin].
        * now apply no_save_before_draw in Hin.
        * cbn [In] in Hin. intuition discriminate.
      + intros p Hin. cbn [In] in Hin. intuition discriminate.
    - right.
      exists (icon_prefix size
                ++ bbox_events
                     (font_at E (t ++ [ImageNew "RGB" size size "#4285f4"; DrawNew]))
                ++ [draw_call size
                      (font_at E (t ++ [ImageNew "RGB" size size "#4285f4"; DrawNew]))
                      wh]),
             [Written (icon_path filename) (drawn size wh g);
              CallPrint (created_line filename size);
              Printed (created_line filename size)].
      split; [now rewrite <- !app_assoc|]. split.
      + intros p Hin. rewrite in_app_iff in Hin. destruct Hin as [Hin|Hin].
        * now apply no_save_before_draw in Hin.
        * cbn [In] in Hin. intuition discriminate.
      + intros p Hin. cbn [In] in Hin. intuition discriminate. }
  destruct Hshape as [Hnone|(a & b & Heq & Ha & Hb)].
  - exfalso. apply (Hnone path), in_elt.
  - symmetry in Heq.
    apply split_unique in Heq as (-> & Hp & ->); [|apply Ha|apply Hb].
    injection Hp as <-. split; [reflexivity|].
    split; [now exists a|]. split; assumption.
Qed.

Lemma X7_makedirs_before_save_witness :
  "extension/icons/icon16.png" = ("extension/icons/" ++ "icon16.png")%string /\
  (exists pre',
      firstn 6 (snd (create_icon env_ok 16 "icon16.png" []))
      = pre' ++ [MakeDirs "extension/icons" true]) /\
  (forall path',
      ~ In (Save path') (firstn 6 (snd (create_icon env_ok 16 "icon16.png" [])))) /\
  (forall path',
      ~ In (Save path') (skipn 7 (snd (create_icon env_ok 16 "icon16.png" [])))).
Proof.
  apply (X7_makedirs_before_save env_ok 16 "icon16.png" [] (inr tt)
           (snd (create_icon env_ok 16 "icon16.png" []))
           (firstn 6 (snd (create_icon env_ok 16 "icon16.png" [])))
           "extension/icons/icon16.png"
           (skipn 7 (snd (create_icon env_ok 16 "icon16.png" [])))).
  - reflexivity.
  - reflexivity.
Defined.
